(** * collect_anomaly_defense_coverage.py: loader, normalizer and goal evaluator

    A shallow embedding of the report pipeline of
    [collect_anomaly_defense_coverage.py] and the properties its
    specification states about it.

    Modelling decisions.
    - Values obtained from [json.loads] are terms of [json]; a Python dict is
      an association list in insertion order, read by first match.
    - Python [int] is [Z]. Python [float] is an IEEE 754 binary64 number, a
      [spec_float] of the Standard Library with precision 53 and maximal
      exponent 1024: signed zeros, infinities and NaN are values, every
      operation rounds to nearest-even, and the conversions and divisions
      that Python refuses raise [OverflowError] or [ZeroDivisionError].
    - A Python exception is a constructor of [exn]; a computation that may
      raise returns a [result].
    - The hidden state of the [random] module and the lines written to
      standard output are threaded explicitly through the monad [M].
    - The C functions behind [math.sqrt], [math.sin] and [math.exp], the
      random generator, the text of the simulated files and [json.loads] are
      parameters of the model: every statement holds whatever they are.
    - The two module-level dictionaries are parameters of the report as well;
      [FILE_PATHS] and [PERFORMANCE_GOALS_DICT] are the shipped values.
    - The rendering of the report (tables, number formats, headings) is not
      modelled: the report keeps the rows and the overall verdict.
    - The rate that the simulation draws with [random.uniform] is only used
      through [math.floor(actual_rate * TOTAL_TESTS)]; it is kept as an exact
      rational. *)

From Stdlib Require Import ZArith QArith Qminmax Qround List Permutation String
  Ascii Bool Lia Lqa SpecFloat.
Import ListNotations.
Local Open Scope string_scope.
Local Open Scope Z_scope.

Set Implicit Arguments.
Set Warnings "-register-all".

(** ** Doubles *)

Definition prec : Z := 53.
Definition emax : Z := 1024.

Definition float : Type := spec_float.

Definition fadd : float -> float -> float := SFadd prec emax.
Definition fsub : float -> float -> float := SFsub prec emax.
Definition fmul : float -> float -> float := SFmul prec emax.
Definition fdiv : float -> float -> float := SFdiv prec emax.
Definition fabs : float -> float := SFabs.

(** [x <= y], [x < y] and [x == y]: false as soon as one side is NaN. *)
Definition fleb : float -> float -> bool := SFleb.
Definition fltb : float -> float -> bool := SFltb.
Definition feqb : float -> float -> bool := SFeqb.

Definition is_nan (x : float) : bool :=
  match x with S754_nan => true | _ => false end.

Definition is_inf (x : float) : bool :=
  match x with S754_infinity _ => true | _ => false end.

Definition is_finite (x : float) : bool :=
  match x with S754_zero _ | S754_finite _ _ _ => true | _ => false end.

Definition zero : float := S754_zero false.
Definition nan : float := S754_nan.
Definition infinity : float := S754_infinity false.

(** An integer as a numerator or denominator, before any rounding. *)
Definition exact (n : Z) : float :=
  match n with
  | Z0 => S754_zero false
  | Zpos p => S754_finite false p 0
  | Zneg p => S754_finite true p 0
  end.

(** The double nearest to the integer [n] (ties to even); it is infinite
    when [n] is beyond the range of the doubles. *)
Definition float_of_Z (n : Z) : float := binary_normalize prec emax n 0 false.

(** The double nearest to the quotient of two integers, [b] not zero; it is
    infinite when the quotient is beyond the range of the doubles. *)
Definition int_quotient (a b : Z) : float := fdiv (exact a) (exact b).

(** A decimal literal of the program: [literal 1 1000] is [0.001]. *)
Definition literal (numerator denominator : Z) : float :=
  int_quotient numerator denominator.

Definition one : float := float_of_Z 1.

Arguments float_of_Z : simpl never.
Arguments int_quotient : simpl never.
Arguments literal : simpl never.
Arguments fadd : simpl never.
Arguments fsub : simpl never.
Arguments fmul : simpl never.
Arguments fdiv : simpl never.
Arguments one : simpl never.

(** ** Values, exceptions, results *)

Inductive json : Type :=
| JNull
| JBool (b : bool)
| JInt (n : Z)
| JFloat (x : float)
| JStr (s : string)
| JList (l : list json)
| JObj (o : list (string * json)).

(** A Python [dict] with string keys, in insertion order. *)
Definition dict := list (string * json).

Inductive exn : Type :=
| KeyError (k : string)
| IndexError
| TypeError
| ValueError
| OverflowError
| ZeroDivisionError
| AttributeError
| JSONDecodeError.

Inductive result (A : Type) : Type :=
| Ok (a : A)
| Raise (e : exn).
Arguments Ok {A} a.
Arguments Raise {A} e.

Definition is_ok {A} (r : result A) : bool :=
  match r with Ok _ => true | Raise _ => false end.

(** ** Dictionaries *)

Section Dict.
Variable V : Type.

Fixpoint dict_lookup (d : list (string * V)) (k : string) : option V :=
  match d with
  | [] => None
  | (k', v) :: rest => if String.eqb k' k then Some v else dict_lookup rest k
  end.

(** [d[k]] *)
Definition dict_item (d : list (string * V)) (k : string) : result V :=
  match dict_lookup d k with
  | Some v => Ok v
  | None => Raise (KeyError k)
  end.

(** [d.get(k, default)] *)
Definition dict_get (d : list (string * V)) (k : string) (default : V) : V :=
  match dict_lookup d k with
  | Some v => v
  | None => default
  end.

(** [d[k] = v]: an existing key keeps its position, a new key goes last. *)
Fixpoint dict_set (d : list (string * V)) (k : string) (v : V)
  : list (string * V) :=
  match d with
  | [] => [(k, v)]
  | (k', v') :: rest =>
      if String.eqb k' k then (k', v) :: rest
      else (k', v') :: dict_set rest k v
  end.

Definition dict_keys (d : list (string * V)) : list string := map fst d.

(** [k in d] *)
Definition dict_mem (d : list (string * V)) (k : string) : bool :=
  match dict_lookup d k with Some _ => true | None => false end.

(** [not d] *)
Definition dict_is_empty (d : list (string * V)) : bool :=
  match d with [] => true | _ :: _ => false end.
End Dict.

(** ** Numbers

    [bool] is a subclass of [int] in Python, so [True] counts as [1]. *)

Inductive num : Type :=
| NInt (n : Z)
| NFloat (x : float).

Definition as_num (v : json) : option num :=
  match v with
  | JInt n => Some (NInt n)
  | JBool b => Some (NInt (Z.b2z b))
  | JFloat x => Some (NFloat x)
  | _ => None
  end.

(** The conversion of an operand to [float]: an integer beyond the range of
    the doubles raises [OverflowError]. *)
Definition to_float (a : num) : result float :=
  match a with
  | NInt n => if is_inf (float_of_Z n) then Raise OverflowError
              else Ok (float_of_Z n)
  | NFloat x => Ok x
  end.

(** [v <= 0]: integers are compared as integers, a double with the double
    zero (NaN is not below anything); a non-number on the left raises
    [TypeError]. *)
Definition py_le_zero (v : json) : result bool :=
  match as_num v with
  | Some (NInt n) => Ok (n <=? 0)
  | Some (NFloat x) => Ok (fleb x zero)
  | None => Raise TypeError
  end.

(** [a / b], true division. Two integers give the double nearest to their
    quotient, or [OverflowError] when there is none; otherwise both operands
    are converted to [float], the left one first, and divided as doubles. A
    zero divisor raises [ZeroDivisionError]. *)
Definition py_truediv (a b : json) : result float :=
  match as_num a, as_num b with
  | Some (NInt x), Some (NInt y) =>
      if y =? 0 then Raise ZeroDivisionError
      else if is_inf (int_quotient x y) then Raise OverflowError
      else Ok (int_quotient x y)
  | Some x, Some y =>
      match to_float x with
      | Raise e => Raise e
      | Ok x' =>
          match to_float y with
          | Raise e => Raise e
          | Ok y' =>
              if feqb y' zero then Raise ZeroDivisionError
              else Ok (fdiv x' y')
          end
      end
  | _, _ => Raise TypeError
  end.

(** [a >= b] on floats. *)
Definition py_ge (a b : float) : bool := fleb b a.
(** ** Iteration and subscripting of JSON values *)

Definition chars (s : string) : list json :=
  map (fun c => JStr (String c EmptyString)) (list_ascii_of_string s).

(** [for x in v]: lists give their elements, strings their characters,
    dicts their keys; anything else is not iterable. *)
Definition py_iter (v : json) : result (list json) :=
  match v with
  | JList l => Ok l
  | JStr s => Ok (chars s)
  | JObj o => Ok (map (fun kv => JStr (fst kv)) o)
  | _ => Raise TypeError
  end.

(** [v[k]] for a string key [k]: only a dict can be subscripted by a string. *)
Definition py_getitem (v : json) (k : string) : result json :=
  match v with
  | JObj o => dict_item o k
  | _ => Raise TypeError
  end.

(** [v == 'SKIP'] *)
Definition is_skip (v : json) : bool :=
  match v with
  | JStr s => String.eqb s "SKIP"
  | _ => false
  end.

(** [sum(1 for log in logs if log['status'] == 'SKIP')]: the generator is
    consumed from the left, the first entry that cannot be read raises. *)
Fixpoint count_skipped (logs : list json) : result nat :=
  match logs with
  | [] => Ok 0%nat
  | log :: rest =>
      match py_getitem log "status" with
      | Raise e => Raise e
      | Ok st =>
          match count_skipped rest with
          | Raise e => Raise e
          | Ok n => Ok (if is_skip st then S n else n)
          end
      end
  end.

(** ** Configuration and records of the pipeline *)

(** A normalized metric, the dict [{"total": .., "success": .., "rate": ..}]:
    [total] and [success] are copied from the raw record as they are. *)
Record metric : Type := Metric {
  total : json;
  success : json;
  rate : float
}.

(** An entry of [PERFORMANCE_GOALS_DICT]. *)
Record goal : Type := Goal {
  description : string;
  expected_value : float;
  goal_unit : string
}.

Definition FILE_PATHS : list (string * string) :=
  [ ("Anomaly Detection Response Rate", "config/test_data/anomaly_test_runs.json");
    ("Malicious Image Detection Rate", "config/test_data/malicious_image_stats.json");
    ("Data Backup and Recovery Coverage", "config/test_data/backup_coverage_log.json");
    ("Configuration Check Log", "config/system/check_compliance_status.json") ].

Definition PERFORMANCE_GOALS_DICT : list (string * goal) :=
  [ ("Anomaly Detection Response Rate",
      Goal "Anomaly Event Detection Response Rate" (literal 90 100) "%");
    ("Malicious Image Detection Rate",
      Goal "Malicious Image Detection Rate" (literal 95 100) "%");
    ("Data Backup and Recovery Coverage",
      Goal "Data Backup and Recovery Coverage" (literal 90 100) "%") ].

Inductive status : Type := PASS | FAIL.

(** A row of [summary_table_data]; the rate and the threshold are kept as
    numbers, their rendering as text belongs to the presentation. *)
Record summary_row : Type := SummaryRow {
  row_description : string;
  row_expected : float;
  row_actual : float;
  row_status : status
}.

(** A row of [calculation_table_data]. *)
Record calculation_row : Type := CalculationRow {
  calc_key : string;
  calc_success : json;
  calc_total : json;
  calc_rate : float
}.

Record report : Type := Report {
  summary_table_data : list summary_row;
  calculation_table_data : list calculation_row;
  all_metrics_passed : bool
}.

(** What the program writes to standard output, one constructor per kind of
    line. *)
Inductive line : Type :=
| Banner (text : string)
| Loading (file_path : string)
| Loaded (test_campaign_id : json)
| LoadFailed (file_path : string) (reason : exn)
| Compliance (compliance_status critical_flags : json)
| Filtered (metric_name : string) (skipped_logs : nat)
| CalculationTable (rows : list calculation_row)
| SummaryTable (rows : list summary_row)
| Conclusion (passed : bool) (compliance_status : json).

(** ** The outside world: [math], [random], file contents *)

(** The C functions [sqrt], [sin] and [exp]. Their values are rounded, so
    the model fixes only what C99 guarantees and the program relies on: when
    the square root is NaN or infinite, when the sine is NaN, that a sine
    lies between -1 and 1, and that the exponential of such a number is
    finite. *)
Record libm : Type := Libm {
  sqrt_val : float -> float;
  sin_val : float -> float;
  exp_val : float -> float;
  sqrt_nan : forall x, is_nan (sqrt_val x) = is_nan x || fltb x zero;
  sqrt_inf : forall x, is_inf (sqrt_val x) = is_inf x && negb (fltb x zero);
  sin_nan : forall x, is_nan (sin_val x) = is_nan x || is_inf x;
  sin_range : forall x, is_finite x = true -> fleb (fabs (sin_val x)) one = true;
  exp_range : forall x, fleb (fabs x) one = true -> is_finite (exp_val x) = true
}.

(** The [random] module over a generator state [rng]. *)
Record random_module (rng : Type) : Type := RandomModule {
  randint : Z -> Z -> rng -> Z * rng;
  uniform : Q -> Q -> rng -> Q * rng;
  getrandbits : Z -> rng -> Z * rng
}.

(** How the [math] module wraps a C function of one argument: a NaN result
    for an argument that is not NaN is a domain error, an infinite result
    for a finite argument is a range error. *)
Definition math_1 (func : float -> float) (can_overflow : bool) (x : float)
  : result float :=
  let r := func x in
  if is_nan r && negb (is_nan x) then Raise ValueError
  else if is_inf r && is_finite x
       then Raise (if can_overflow then OverflowError else ValueError)
       else Ok r.

Definition math_sqrt (L : libm) : float -> result float := math_1 (sqrt_val L) false.
Definition math_sin (L : libm) : float -> result float := math_1 (sin_val L) false.
Definition math_exp (L : libm) : float -> result float := math_1 (exp_val L) true.

(** [l.sort(reverse=True)] on integers. *)
Fixpoint insert_desc (x : Z) (l : list Z) : list Z :=
  match l with
  | [] => [x]
  | y :: rest => if y <? x then x :: l else y :: insert_desc x rest
  end.

Definition sort_reverse (l : list Z) : list Z := fold_right insert_desc [] l.

(** ** The pipeline *)

Section Pipeline.

(** State of the random generator and the operations of [random]. *)
Variable rng : Type.
Variable random : random_module rng.

(** The C library behind [math]. *)
Variable L : libm.

(** [get_simulated_file_content]: the text it returns is drawn from the
    random generator and the clock; it does not raise. It stands for the
    source of the file contents, so it is left open what the text is. *)
Variable get_simulated_file_content : string -> rng -> string * rng.

(** [json.loads] *)
Variable json_loads : string -> result json.

(** The module-level dictionaries [FILE_PATHS] and
    [PERFORMANCE_GOALS_DICT], taken as parameters so that other
    configurations than the shipped one can be talked about. *)
Variable file_paths : list (string * string).
Variable goals : list (string * goal).

(** *** State and exceptions *)

Record world : Type := World {
  gen : rng;
  stdout : list line
}.

Definition M (A : Type) : Type := world -> result A * world.

Definition ret {A} (a : A) : M A := fun w => (Ok a, w).

Definition raise {A} (e : exn) : M A := fun w => (Raise e, w).

Definition bind {A B} (c : M A) (k : A -> M B) : M B :=
  fun w =>
    match c w with
    | (Ok a, w') => k a w'
    | (Raise e, w') => (Raise e, w')
    end.

Definition lift {A} (r : result A) : M A := fun w => (r, w).

(** A call into [random]. *)
Definition draw {A} (f : rng -> A * rng) : M A :=
  fun w => let (a, g) := f (gen w) in (Ok a, World g (stdout w)).

Definition print (l : line) : M unit :=
  fun w => (Ok tt, World (gen w) (stdout w ++ [l])).

(** [try: body except Exception as e: handler(e)] *)
Definition try_except {A} (body : M A) (handler : exn -> M A) : M A :=
  fun w =>
    match body w with
    | (Ok a, w') => (Ok a, w')
    | (Raise e, w') => handler e w'
    end.

Notation "x <- c ;; k" := (bind c (fun x => k))
  (at level 61, c at next level, right associativity).

(** *** [execute_complex_validation_function] *)

(** [[random.randint(1, 10) for _ in range(n)]] *)
Fixpoint randint_list (n : nat) : M (list Z) :=
  match n with
  | O => ret []
  | S n' =>
      x <- draw (randint random 1 10) ;;
      rest <- randint_list n' ;;
      ret (x :: rest)
  end.

Definition execute_complex_validation_function (input_value : float) : M float :=
  intermediate_result_A <-
    lift (math_sqrt L (fadd (fmul input_value one) (literal 1 1000))) ;;
  intermediate_result_B <- lift (math_sin L intermediate_result_A) ;;
  useless_consumption_C <- lift (math_exp L intermediate_result_B) ;;
  useless_list <- randint_list 500 ;;
  let useless_list := sort_reverse useless_list in
  ret input_value.

(** *** [parse_and_clean_raw_data] *)

Definition zero_metric : metric := Metric (JInt 0) (JInt 0) zero.

Definition skipped_count (event_logs : json) : result nat :=
  match py_iter event_logs with
  | Ok logs => count_skipped logs
  | Raise e => Raise e
  end.

Definition parse_and_clean_raw_data (raw_data : dict) (metric_name : string)
  : M metric :=
  if dict_is_empty raw_data then ret zero_metric
  else
    skipped_logs <- lift (skipped_count (dict_get raw_data "event_logs" (JList []))) ;;
    total_test_cases <- lift (dict_item raw_data "total_test_cases") ;;
    nonpositive <- lift (py_le_zero total_test_cases) ;;
    if (nonpositive : bool) then ret zero_metric
    else
      successful_cases <- lift (dict_item raw_data "successful_cases") ;;
      precise_rate <- lift (py_truediv successful_cases total_test_cases) ;;
      _ <- print (Filtered metric_name skipped_logs) ;;
      validated <- execute_complex_validation_function precise_rate ;;
      ret (Metric total_test_cases successful_cases validated).

(** *** [load_data_from_simulated_file] *)

(** ['timestamp' in data] *)
Definition has_timestamp (data : json) : result bool :=
  match data with
  | JObj o => Ok (dict_mem o "timestamp")
  | JList l => Ok (existsb (fun v => match v with
                                     | JStr s => String.eqb s "timestamp"
                                     | _ => false
                                     end) l)
  | JStr s => Ok (match index 0 "timestamp" s with
                  | Some _ => true
                  | None => false
                  end)
  | _ => Raise TypeError
  end.

(** [[k for k, v in FILE_PATHS.items() if v == file_path][0]] *)
Definition metric_name_of_path (file_path : string) : result string :=
  match filter (fun kv => String.eqb (snd kv) file_path) file_paths with
  | [] => Raise IndexError
  | (k, _) :: _ => Ok k
  end.

Definition load_data_from_simulated_file (file_path : string) : M dict :=
  metric_name <- lift (metric_name_of_path file_path) ;;
  file_content <- draw (get_simulated_file_content metric_name) ;;
  _ <- print (Loading file_path) ;;
  try_except
    (_ <- draw (uniform random (1 # 100) (1 # 10)) ;;
     data <- lift (json_loads file_content) ;;
     present <- lift (has_timestamp data) ;;
     if negb present then raise ValueError
     else
       match data with
       | JObj o =>
           _ <- print (Loaded (dict_get o "test_campaign_id" (JStr "N/A"))) ;;
           ret o
       | _ => raise AttributeError
       end)
    (fun e => _ <- print (LoadFailed file_path e) ;; ret []).

(** *** [generate_security_and_resilience_report] *)

(** The ingestion loop over [FILE_PATHS.items()]. *)
Fixpoint ingest (items : list (string * string))
  (processed_metric_data : list (string * metric))
  : M (list (string * metric)) :=
  match items with
  | [] => ret processed_metric_data
  | (metric_name, file_path) :: rest =>
      if String.eqb metric_name "Configuration Check Log"
      then ingest rest processed_metric_data
      else
        raw_data <- load_data_from_simulated_file file_path ;;
        processed_data <- parse_and_clean_raw_data raw_data metric_name ;;
        ingest rest (dict_set processed_metric_data metric_name processed_data)
  end.

Definition status_of (actual_rate expected_value : float) : status :=
  if py_ge actual_rate expected_value then PASS else FAIL.

(** The loop over [PERFORMANCE_GOALS_DICT.items()] that fills both tables. *)
Fixpoint build_tables (items : list (string * goal))
  (processed_metric_data : list (string * metric))
  : result (list summary_row * list calculation_row) :=
  match items with
  | [] => Ok ([], [])
  | (key, goal_data) :: rest =>
      match dict_item processed_metric_data key with
      | Raise e => Raise e
      | Ok actual_data =>
          let actual_rate := rate actual_data in
          let expected_value := expected_value goal_data in
          let status := status_of actual_rate expected_value in
          match build_tables rest processed_metric_data with
          | Raise e => Raise e
          | Ok (summary, calculation) =>
              Ok (SummaryRow (description goal_data) expected_value
                    actual_rate status :: summary,
                  CalculationRow key (success actual_data)
                    (total actual_data) actual_rate :: calculation)
          end
      end
  end.

(** [all(processed_metric_data[key]['rate'] >=
         PERFORMANCE_GOALS_DICT[key]['expected_value']
         for key in processed_metric_data)]: [all] stops at the first
    false element. *)
Fixpoint all_passed (keys : list string)
  (processed_metric_data : list (string * metric)) : result bool :=
  match keys with
  | [] => Ok true
  | key :: rest =>
      match dict_item processed_metric_data key with
      | Raise e => Raise e
      | Ok actual_data =>
          match dict_item goals key with
          | Raise e => Raise e
          | Ok goal_data =>
              if py_ge (rate actual_data) (expected_value goal_data)
              then all_passed rest processed_metric_data
              else Ok false
          end
      end
  end.

Definition generate_security_and_resilience_report : M report :=
  _ <- print (Banner ">>> STARTING CONFIGURATION COMPLIANCE CHECK <<<") ;;
  compliance_path <- lift (dict_item file_paths "Configuration Check Log") ;;
  compliance_data <- load_data_from_simulated_file compliance_path ;;
  _ <- print (Compliance
                (dict_get compliance_data "compliance_status" (JStr "UNKNOWN"))
                (dict_get compliance_data "critical_flags" (JInt 0))) ;;
  _ <- print (Banner ">>> CONFIGURATION CHECK COMPLETE <<<") ;;
  _ <- print (Banner ">>> STARTING DATA INGESTION AND ANALYSIS <<<") ;;
  processed_metric_data <- ingest file_paths [] ;;
  _ <- print (Banner ">>> DATA ANALYSIS COMPLETE <<<") ;;
  random_checksum <- draw (getrandbits random 32) ;;
  tables <- lift (build_tables goals processed_metric_data) ;;
  let (summary_table_data, calculation_table_data) :=
    (tables : list summary_row * list calculation_row) in
  _ <- print (Banner "**Kubernetes Operator Security & Resilience Test Report** (Version: v1.3.0)") ;;
  _ <- print (CalculationTable calculation_table_data) ;;
  _ <- print (SummaryTable summary_table_data) ;;
  all_metrics_passed <- lift (all_passed (dict_keys processed_metric_data)
                                processed_metric_data) ;;
  _ <- print (Conclusion all_metrics_passed
                (dict_get compliance_data "compliance_status" (JStr "N/A"))) ;;
  ret (Report summary_table_data calculation_table_data all_metrics_passed).

End Pipeline.

Arguments World {rng} gen stdout.

(** ** The domain of the validation function *)

(** [input_value * 1.0 + 0.001], the argument of [math.sqrt]. *)
Definition shifted (input_value : float) : float :=
  fadd (fmul input_value one) (literal 1 1000).

(** [math.sqrt] accepts every argument that is not negative (NaN included),
    [math.sin] every square root that is not infinite. *)
Definition in_domain (input_value : float) : bool :=
  negb (fltb (shifted input_value) zero) && negb (is_inf (shifted input_value)).

(** ** Well-formed raw records

    The record schema of the sources: [event_logs], when present, is a list
    of objects that each carry a [status]. *)

Definition has_status (log : json) : bool :=
  match log with
  | JObj o => dict_mem o "status"
  | _ => false
  end.

Definition valid_event_logs (event_logs : json) : bool :=
  match event_logs with
  | JList logs => forallb has_status logs
  | _ => false
  end.

(** The records of the schema on which the normalizer returns: well-formed
    event logs, a numeric [total_test_cases] and, unless that is [<= 0], a
    numeric [successful_cases] whose quotient by the total exists as a double
    and lies in the domain of the validation function. *)
Definition well_formed (raw_data : dict) : bool :=
  valid_event_logs (dict_get raw_data "event_logs" (JList [])) &&
  match dict_lookup raw_data "total_test_cases" with
  | Some total_test_cases =>
      match py_le_zero total_test_cases with
      | Ok true => true
      | Ok false =>
          match dict_lookup raw_data "successful_cases" with
          | Some successful_cases =>
              match py_truediv successful_cases total_test_cases with
              | Ok precise_rate => in_domain precise_rate
              | Raise _ => false
              end
          | None => false
          end
      | Raise _ => false
      end
  | None => false
  end.

(** What the normalizer returns or raises for a record, step by step as
    [parse_and_clean_raw_data] goes, without the state. *)
Definition outcome_of_record (raw_data : dict) : result metric :=
  if dict_is_empty raw_data then Ok zero_metric
  else
    match skipped_count (dict_get raw_data "event_logs" (JList [])) with
    | Raise e => Raise e
    | Ok _ =>
        match dict_item raw_data "total_test_cases" with
        | Raise e => Raise e
        | Ok total_test_cases =>
            match py_le_zero total_test_cases with
            | Raise e => Raise e
            | Ok true => Ok zero_metric
            | Ok false =>
                match dict_item raw_data "successful_cases" with
                | Raise e => Raise e
                | Ok successful_cases =>
                    match py_truediv successful_cases total_test_cases with
                    | Raise e => Raise e
                    | Ok precise_rate =>
                        if in_domain precise_rate
                        then Ok (Metric total_test_cases successful_cases
                                   precise_rate)
                        else Raise ValueError
                    end
                end
            end
        end
    end.

(** ** The normalizer as the specification words it

    "If raw is empty or [total_test_cases <= 0], produce
    [{total:0, success:0, rate:0.0}]; otherwise
    [rate = successful_cases / total_test_cases]", the plain ratio with no
    transformation applied. *)
Definition normalize_spec (total_test_cases successful_cases : Z) : metric :=
  if total_test_cases <=? 0 then Metric (JInt 0) (JInt 0) zero
  else Metric (JInt total_test_cases) (JInt successful_cases)
         (int_quotient successful_cases total_test_cases).

Definition is_pass (s : status) : bool :=
  match s with PASS => true | FAIL => false end.

(** ** Sources that fail and sources that deliver *)

(** Why the loader gives up on a decoded value: the exception raised between
    [json.loads] and [return data], if any. *)
Definition rejection (data : json) : option exn :=
  match has_timestamp data with
  | Raise e => Some e
  | Ok false => Some ValueError
  | Ok true => match data with
               | JObj _ => None
               | _ => Some AttributeError
               end
  end.

(** The paths of the "loading" lines of an output, in order. *)

(** The content of a source is unusable when it "fails to deserialize" or
    "lacks the required timestamp field": the decoder raises, or the decoded
    value is rejected, whatever the reason (no ['timestamp'] key in an
    object, a value that has no members, a value that is not an object). It
    is usable when it holds a well-formed record with a timestamp. A source
    fails (delivers) when its content is unusable (usable) whatever the state
    of the generator. *)

Definition content_unusable (json_loads : string -> result json)
  (file_content : string) : Prop :=
  (exists e, json_loads file_content = Raise e) \/
  (exists data e, json_loads file_content = Ok data /\ rejection data = Some e).

Definition content_usable (json_loads : string -> result json)
  (file_content : string) : Prop :=
  exists o, json_loads file_content = Ok (JObj o) /\
            dict_mem o "timestamp" = true /\ well_formed o = true.

Definition source_fails (rng : Type)
  (get_simulated_file_content : string -> rng -> string * rng)
  (json_loads : string -> result json) (metric_name : string) : Prop :=
  forall g, content_unusable json_loads (fst (get_simulated_file_content metric_name g)).

Definition source_delivers (rng : Type)
  (get_simulated_file_content : string -> rng -> string * rng)
  (json_loads : string -> result json) (metric_name : string) : Prop :=
  forall g, content_usable json_loads (fst (get_simulated_file_content metric_name g)).

(** ** The rows and the verdict, goal by goal

    What the evaluation loop reads for one key: the rate of its metric and the
    threshold of its goal ([0] stands for a missing entry, which the loop
    itself reports by [KeyError]). *)

Definition rate_of (processed_metric_data : list (string * metric)) (key : string)
  : float :=
  match dict_lookup processed_metric_data key with
  | Some actual_data => rate actual_data
  | None => zero
  end.

Definition threshold_of (goals : list (string * goal)) (key : string) : float :=
  match dict_lookup goals key with
  | Some goal_data => expected_value goal_data
  | None => zero
  end.

Definition summary_of (processed_metric_data : list (string * metric))
  (item : string * goal) : summary_row :=
  let actual_rate := rate_of processed_metric_data (fst item) in
  SummaryRow (description (snd item)) (expected_value (snd item)) actual_rate
    (status_of actual_rate (expected_value (snd item))).

(** ** A reference world, to run the model on concrete inputs *)

Module Reference.

(** A linear congruential generator stands for the Mersenne twister. *)
Definition next (g : Z) : Z := (g * 1103515245 + 12345) mod 2147483648.

Definition random : random_module Z :=
  RandomModule
    (fun a b g => (a + next g mod (b - a + 1), next g))
    (fun a b g => ((a + (b - a) * (next g mod 1000 # 1000))%Q, next g))
    (fun k g => (next g mod 2 ^ k, next g)).

(** Rational approximations of the three functions of [math]. *)
(** First-order approximations of the three functions of [math], which the
    program computes and discards: the correctly rounded square root, [x]
    for the sine of a small [x], [1 + x] for the exponential. *)
Definition sqrt_val (x : float) : float :=
  if is_nan x || fltb x zero then nan
  else if is_inf x then x
  else let r := SFsqrt prec emax x in if is_finite r then r else x.

Definition sin_val (x : float) : float :=
  if is_nan x || is_inf x then nan
  else if fleb (fabs x) one then x else zero.

Definition exp_val (x : float) : float :=
  if fleb (fabs x) one
  then let r := fadd one x in if is_finite r then r else one
  else x.

Lemma finite_is_not_nan (x : float) : is_finite x = true -> is_nan x = false.
Proof. now destruct x. Qed.

Lemma finite_is_not_inf (x : float) : is_finite x = true -> is_inf x = false.
Proof. now destruct x. Qed.

Lemma sqrt_val_nan : forall x, is_nan (sqrt_val x) = is_nan x || fltb x zero.
Proof.
  intro x. unfold sqrt_val.
  destruct (is_nan x || fltb x zero) eqn:E; [reflexivity|].
  apply orb_false_iff in E as [E _].
  destruct (is_inf x); [exact E|].
  destruct (is_finite (SFsqrt prec emax x)) eqn:F; [|exact E].
  now apply finite_is_not_nan.
Qed.

Lemma sqrt_val_inf : forall x, is_inf (sqrt_val x) = is_inf x && negb (fltb x zero).
Proof.
  intro x. unfold sqrt_val.
  destruct (is_nan x || fltb x zero) eqn:E.
  - apply orb_true_iff in E as [E | E].
    + destruct x; try discriminate. reflexivity.
    + rewrite E. now rewrite andb_false_r.
  - apply orb_false_iff in E as [_ E]. rewrite E, andb_true_r.
    destruct (is_inf x) eqn:I; [exact I|].
    destruct (is_finite (SFsqrt prec emax x)) eqn:F; [|exact I].
    now apply finite_is_not_inf.
Qed.

Lemma sin_val_nan : forall x, is_nan (sin_val x) = is_nan x || is_inf x.
Proof.
  intro x. unfold sin_val.
  destruct (is_nan x || is_inf x) eqn:E; [reflexivity|].
  apply orb_false_iff in E as [E _].
  destruct (fleb (fabs x) one); [exact E | reflexivity].
Qed.

Lemma sin_val_range :
  forall x, is_finite x = true -> fleb (fabs (sin_val x)) one = true.
Proof.
  intros x H. unfold sin_val.
  rewrite (finite_is_not_nan _ H), (finite_is_not_inf _ H). cbn [orb].
  destruct (fleb (fabs x) one) eqn:E; [exact E | reflexivity].
Qed.

Lemma exp_val_range :
  forall x, fleb (fabs x) one = true -> is_finite (exp_val x) = true.
Proof.
  intros x H. unfold exp_val. rewrite H.
  destruct (is_finite (fadd one x)) eqn:F; [exact F | reflexivity].
Qed.

Definition L : libm :=
  Libm sqrt_val sin_val exp_val
    sqrt_val_nan sqrt_val_inf sin_val_nan sin_val_range exp_val_range.

(** Raw records as the simulated sources produce them. *)
Definition event (id : Z) (st : string) (duration_ms : Z) : json :=
  JObj [("id", JInt id); ("status", JStr st); ("duration_ms", JInt duration_ms)].

Definition record (total_test_cases successful_cases : Z) (event_logs : list json)
  : dict :=
  [ ("test_campaign_id", JInt 4711);
    ("total_test_cases", JInt total_test_cases);
    ("successful_cases", JInt successful_cases);
    ("failure_modes", JList [JStr "Timeout"; JStr "UnexpectedState"; JStr "Corruption"]);
    ("timestamp", JFloat (float_of_Z 1762214400));
    ("event_logs", JList event_logs) ].

Definition compliance_record : dict :=
  [ ("compliance_status", JStr "HIGH");
    ("last_check_time", JFloat (float_of_Z 1762214000));
    ("critical_flags", JInt 2) ].

(** The file store of the reference world, in place of the simulated
    contents: the text of each source, and the decoder. Texts are kept
    symbolic, [json_loads] maps each of them to the value it holds; the
    backup log is a file that cannot be decoded. *)
Definition file_store (metric_name : string) (g : Z) : string * Z :=
  (metric_name, next g).

Definition json_loads (file_content : string) : result json :=
  if String.eqb file_content "Anomaly Detection Response Rate"
  then Ok (JObj (record 850 833 [event 0 "SUCCESS" 120; event 1 "SKIP" 75]))
  else if String.eqb file_content "Malicious Image Detection Rate"
  then Ok (JObj (record 600 540 [event 0 "SKIP" 50; event 1 "SKIP" 60]))
  else if String.eqb file_content "Configuration Check Log"
  then Ok (JObj compliance_record)
  else Raise JSONDecodeError.

Definition w0 : world Z := World 42 [].

(** Normalized metrics as a run leaves them, and the rows they give. *)
Definition processed : list (string * metric) :=
  [ ("Anomaly Detection Response Rate", Metric (JInt 850) (JInt 833) (int_quotient 833 850));
    ("Malicious Image Detection Rate", Metric (JInt 600) (JInt 540) (int_quotient 540 600));
    ("Data Backup and Recovery Coverage", Metric (JInt 0) (JInt 0) zero) ].

Definition summary : list summary_row :=
  [ SummaryRow "Anomaly Event Detection Response Rate" (literal 90 100) (int_quotient 833 850) PASS;
    SummaryRow "Malicious Image Detection Rate" (literal 95 100) (int_quotient 540 600) FAIL;
    SummaryRow "Data Backup and Recovery Coverage" (literal 90 100) zero FAIL ].

Definition calculation : list calculation_row :=
  [ CalculationRow "Anomaly Detection Response Rate" (JInt 833) (JInt 850) (int_quotient 833 850);
    CalculationRow "Malicious Image Detection Rate" (JInt 540) (JInt 600) (int_quotient 540 600);
    CalculationRow "Data Backup and Recovery Coverage" (JInt 0) (JInt 0) zero ].

(** The shipped goals plus one for which no source is configured. *)
Definition goals_with_orphan : list (string * goal) :=
  PERFORMANCE_GOALS_DICT ++
  [ ("Pod Restart Recovery Rate", Goal "Pod Restart Recovery Rate" (literal 90 100) "%") ].

End Reference.

(** The normalizer, the loader and the report of the shipped configuration,
    run in the reference world. *)
Module Run.
Import Reference.

Abbreviation parse := (parse_and_clean_raw_data random L).
Abbreviation load := (load_data_from_simulated_file random
                        file_store json_loads FILE_PATHS).
Abbreviation run_report goals :=
  (generate_security_and_resilience_report random L
     file_store json_loads FILE_PATHS goals).
End Run.

(** ** The simulated file contents

    [get_simulated_file_content], the test double behind the loader. What it
    draws comes from [random] and from the clock; [random.choice] (on the
    non-empty lists of the program), [time.time] and [json.dumps] are
    parameters, as [random] is. *)

Module Simulated.
Section Simulation.

Variable rng : Type.
Variable random : random_module rng.

(** [random.choice] on a list of strings. *)
Variable choice : list string -> rng -> string * rng.

(** [time.time()]; the clock is part of the hidden state. *)
Variable time_time : rng -> float * rng.

(** [json.dumps] *)
Variable json_dumps : json -> string.

(** [TOTAL_TESTS] and [MIN_RATE, MAX_RATE] of the primary metric files. *)
Definition simulation_parameters (metric_name : string) : Z * Q * Q :=
  if String.eqb metric_name "Anomaly Detection Response Rate"
  then (850, 92 # 100, 98 # 100)
  else if String.eqb metric_name "Malicious Image Detection Rate"
  then (600, 96 # 100, 99 # 100)
  else (725, 91 # 100, 97 # 100).

(** [[{"id": i, "status": random.choice([...]),
       "duration_ms": random.randint(50, 500)} for i in range(TOTAL_TESTS)]],
    from index [i] on, [n] entries. *)
Fixpoint event_logs_from (i : Z) (n : nat) (g : rng) : list json * rng :=
  match n with
  | O => ([], g)
  | S n' =>
      let (st, g1) := choice ["SUCCESS"; "TIMEOUT"; "SKIP"; "FAIL"] g in
      let (duration_ms, g2) := randint random 50 500 g1 in
      let (rest, g3) := event_logs_from (i + 1) n' g2 in
      (JObj [("id", JInt i); ("status", JStr st); ("duration_ms", JInt duration_ms)]
         :: rest, g3)
  end.

(** The dict that is serialized, at either [return]. *)
Definition simulated_value (metric_name : string) (g : rng) : json * rng :=
  if String.eqb metric_name "Configuration Check Log"
  then
    let (compliance_status, g1) := choice ["HIGH"; "MEDIUM"; "LOW"] g in
    let (now, g2) := time_time g1 in
    let (ago, g3) := randint random 100 1000 g2 in
    let (critical_flags, g4) := randint random 0 5 g3 in
    (JObj [ ("compliance_status", JStr compliance_status);
            ("last_check_time", JFloat (fsub now (float_of_Z ago)));
            ("critical_flags", JInt critical_flags) ], g4)
  else
    let '(TOTAL_TESTS, MIN_RATE, MAX_RATE) := simulation_parameters metric_name in
    let (actual_rate, g1) := uniform random MIN_RATE MAX_RATE g in
    let success_runs := Qfloor (actual_rate * inject_Z TOTAL_TESTS) in
    let (event_logs, g2) := event_logs_from 0 (Z.to_nat TOTAL_TESTS) g1 in
    let (test_campaign_id, g3) := getrandbits random 16 g2 in
    let (now, g4) := time_time g3 in
    (JObj [ ("test_campaign_id", JInt test_campaign_id);
            ("total_test_cases", JInt TOTAL_TESTS);
            ("successful_cases", JInt success_runs);
            ("failure_modes",
              JList [JStr "Timeout"; JStr "UnexpectedState"; JStr "Corruption"]);
            ("timestamp", JFloat now);
            ("event_logs", JList event_logs) ], g4).

Definition get_simulated_file_content (metric_name : string) (g : rng)
  : string * rng :=
  let (value, g') := simulated_value metric_name g in (json_dumps value, g').

End Simulation.
End Simulated.

(** [random.uniform(a, b)] returns a number between [a] and [b]. *)
Definition uniform_in_range (rng : Type) (random : random_module rng) : Prop :=
  forall a b g, (a <= b)%Q ->
    (a <= fst (uniform random a b g))%Q /\ (fst (uniform random a b g) <= b)%Q.

(** [json.loads] reads back what [json.dumps] wrote for the simulation. *)
Definition simulation_round_trip (rng : Type) (random : random_module rng)
  (choice : list string -> rng -> string * rng) (time_time : rng -> float * rng)
  (json_dumps : json -> string) (json_loads : string -> result json) : Prop :=
  forall metric_name g,
    json_loads
      (json_dumps (fst (Simulated.simulated_value random choice time_time metric_name g)))
    = Ok (fst (Simulated.simulated_value random choice time_time metric_name g)).

(** The generator once the loader has fetched the content and drawn its
    delay. *)
Definition generator_after_load (rng : Type) (random : random_module rng)
  (get_simulated_file_content : string -> rng -> string * rng)
  (metric_name : string) (g : rng) : rng :=
  snd (uniform random (1 # 100) (1 # 10)
         (snd (get_simulated_file_content metric_name g))).

(** The names of [FILE_PATHS] that the ingestion loop does not skip. *)
Definition is_metric_name (k : string) : bool :=
  negb (String.eqb k "Configuration Check Log").

(** The number of logs whose status is ['SKIP']. *)
Definition skip_entries (logs : list json) : nat :=
  List.length (filter (fun log => match py_getitem log "status" with
                             | Ok st => is_skip st
                             | Raise _ => false
                             end) logs).

Definition loading_lines (out : list line) : list string :=
  flat_map (fun l => match l with Loading file_path => [file_path] | _ => [] end) out.

(** The paths of the metric sources, in the order of [FILE_PATHS]. *)
Definition metric_paths (file_paths : list (string * string)) : list string :=
  map snd (filter (fun kv => is_metric_name (fst kv)) file_paths).

(** A metric reaches its shipped goal and stays below 1. *)
Definition reaches_goal (key : string) (m : metric) : Prop :=
  fleb (threshold_of PERFORMANCE_GOALS_DICT key) (rate m) = true /\
  fltb (rate m) one = true.

(** The reference world with a truncated second source: the text decodes to
    an object that has a ['timestamp'] but no counts. *)
Module Truncated.

Definition truncated_record : dict :=
  [ ("test_campaign_id", JInt 4711); ("timestamp", JFloat (float_of_Z 1762214400)) ].

Definition json_loads (file_content : string) : result json :=
  if String.eqb file_content "Malicious Image Detection Rate"
  then Ok (JObj truncated_record)
  else Reference.json_loads file_content.

End Truncated.

(** A world without chance, to run the simulation: every draw returns its
    lower bound, the clock stands still, and the four texts that can then be
    written are told apart by a name. *)
Module Fixed.

Definition random : random_module unit :=
  RandomModule (fun a b g => (a, g)) (fun a b g => (a, g)) (fun k g => (0, g)).

Definition choice (l : list string) (g : unit) : string * unit := (hd "" l, g).

Definition time_time (g : unit) : float * unit := (float_of_Z 1762214400, g).

Definition json_dumps (value : json) : string :=
  match value with
  | JObj o =>
      match dict_lookup o "total_test_cases" with
      | Some (JInt n) =>
          if n =? 850 then "anomaly_test_runs"
          else if n =? 600 then "malicious_image_stats"
          else "backup_coverage_log"
      | _ => "check_compliance_status"
      end
  | _ => ""
  end.

Definition written (metric_name : string) : json :=
  fst (Simulated.simulated_value random choice time_time metric_name tt).

Definition json_loads (file_content : string) : result json :=
  if String.eqb file_content "anomaly_test_runs"
  then Ok (written "Anomaly Detection Response Rate")
  else if String.eqb file_content "malicious_image_stats"
  then Ok (written "Malicious Image Detection Rate")
  else if String.eqb file_content "backup_coverage_log"
  then Ok (written "Data Backup and Recovery Coverage")
  else if String.eqb file_content "check_compliance_status"
  then Ok (written "Configuration Check Log")
  else Raise JSONDecodeError.

Definition w0 : world unit := World tt [].

End Fixed.

(** * Properties *)

(** ** Dictionaries *)

Section DictFacts.
Variable V : Type.
Implicit Types (d : list (string * V)) (k : string) (v : V).

Lemma dict_lookup_set_same d k v : dict_lookup (dict_set d k v) k = Some v.
Proof.
  induction d as [|[k' v'] d IH]; simpl.
  - now rewrite String.eqb_refl.
  - destruct (String.eqb k' k) eqn:E; simpl; rewrite E; auto.
Qed.

Lemma dict_lookup_set_other d k k' v :
  k <> k' -> dict_lookup (dict_set d k v) k' = dict_lookup d k'.
Proof.
  intro Hne. induction d as [|[k0 v0] d IH]; simpl.
  - destruct (String.eqb k k') eqn:E; auto.
    apply String.eqb_eq in E. contradiction.
  - destruct (String.eqb k0 k) eqn:E; simpl.
    + apply String.eqb_eq in E. subst k0.
      destruct (String.eqb k k') eqn:E'; auto.
      apply String.eqb_eq in E'. contradiction.
    + now rewrite IH.
Qed.

Lemma dict_lookup_in d k : In k (dict_keys d) <-> dict_lookup d k <> None.
Proof.
  induction d as [|[k0 v0] d IH]; simpl.
  - split; [tauto | congruence].
  - destruct (String.eqb k0 k) eqn:E.
    + apply String.eqb_eq in E. split; [discriminate | auto].
    + apply String.eqb_neq in E. rewrite <- IH. split; [|tauto].
      intros [H|H]; [contradiction | assumption].
Qed.

Lemma dict_lookup_none d k : ~ In k (dict_keys d) <-> dict_lookup d k = None.
Proof.
  rewrite dict_lookup_in. destruct (dict_lookup d k) as [v|].
  - split; intro H; [exfalso; apply H|]; discriminate.
  - split; intro H; [reflexivity | intro H'; now apply H'].
Qed.

Lemma dict_keys_set d k v k' :
  In k' (dict_keys (dict_set d k v)) <-> k' = k \/ In k' (dict_keys d).
Proof.
  rewrite !dict_lookup_in.
  destruct (string_dec k k') as [->|Hne].
  - rewrite dict_lookup_set_same. split; [auto | discriminate].
  - rewrite dict_lookup_set_other by assumption.
    split; [auto | intros [->|H]; [contradiction | assumption]].
Qed.

Lemma dict_lookup_nonempty d k v : dict_lookup d k = Some v -> dict_is_empty d = false.
Proof. destruct d; [discriminate | reflexivity]. Qed.

End DictFacts.

(** ** Counting skipped logs *)

Lemma has_status_getitem log :
  has_status log = true -> exists st, py_getitem log "status" = Ok st.
Proof.
  destruct log; simpl; try discriminate.
  unfold dict_mem, dict_item. destruct (dict_lookup o "status"); [eauto | discriminate].
Qed.

Lemma count_skipped_valid logs :
  forallb has_status logs = true -> exists n, count_skipped logs = Ok n.
Proof.
  induction logs as [|log logs IH]; simpl; intro H.
  - eauto.
  - apply andb_true_iff in H as [H1 H2].
    destruct (has_status_getitem _ H1) as [st ->].
    destruct (IH H2) as [n ->]. eauto.
Qed.

Lemma valid_event_logs_is_list v :
  valid_event_logs v = true -> exists logs, v = JList logs /\ forallb has_status logs = true.
Proof. destruct v; simpl; try discriminate. eauto. Qed.

(** ** Doubles *)

Lemma one_is : one = S754_finite false 4503599627370496 (-52).
Proof. reflexivity. Qed.

Lemma fltb_is_not_nan (x y : float) : fltb x y = true -> is_nan x = false.
Proof. destruct x; try reflexivity. discriminate. Qed.

Lemma inf_is_not_nan (x : float) : is_inf x = true -> is_nan x = false.
Proof. now destruct x. Qed.

Lemma inf_is_not_finite (x : float) : is_inf x = true -> is_finite x = false.
Proof. now destruct x. Qed.

Lemma not_nan_not_inf_is_finite (x : float) :
  is_nan x = false -> is_inf x = false -> is_finite x = true.
Proof. now destruct x. Qed.

Lemma finite_not_nan (x : float) : is_finite x = true -> is_nan x = false.
Proof. now destruct x. Qed.

Lemma finite_not_inf (x : float) : is_finite x = true -> is_inf x = false.
Proof. now destruct x. Qed.

Lemma at_most_one_is_finite (x : float) :
  fleb (fabs x) one = true -> is_finite x = true.
Proof. rewrite one_is. destruct x as [s|s| |s m e]; try reflexivity; discriminate. Qed.

(** ** The validation function *)

Section Validation.
Variable rng : Type.
Variable random : random_module rng.
Variable L : libm.

Implicit Types (w : world rng).

Lemma randint_list_runs n w :
  exists l w', randint_list random n w = (Ok l, w') /\ stdout w' = stdout w.
Proof.
  revert w. induction n as [|n IH]; intro w; simpl.
  - unfold ret. eauto.
  - unfold bind at 1. unfold draw at 1.
    destruct (randint random 1 10 (gen w)) as [x g].
    unfold bind at 1.
    destruct (IH (World g (stdout w))) as (l & w' & -> & Hout).
    unfold ret. eauto.
Qed.

(** The generator after [n] calls of [random.randint(1, 10)]. *)
Lemma randint_list_state n w :
  exists l,
    randint_list random n w =
      (Ok l, World (Nat.iter n (fun g => snd (randint random 1 10 g)) (gen w))
               (stdout w))
    /\ List.length l = n.
Proof.
  revert w. induction n as [|n IH]; intro w.
  - exists []. destruct w. split; reflexivity.
  - cbn [randint_list]. unfold bind at 1. unfold draw at 1.
    destruct (randint random 1 10 (gen w)) as [x g] eqn:Hx.
    unfold bind at 1.
    destruct (IH (World g (stdout w))) as (l & -> & Hlen).
    exists (x :: l). unfold ret. cbn [gen stdout]. split.
    + rewrite Nat.iter_succ_r, Hx. reflexivity.
    + simpl. now rewrite Hlen.
Qed.

(** [math.sqrt] raises exactly on a negative argument; its result is
    infinite only for an infinite argument. *)
Lemma math_sqrt_cases y :
  math_sqrt L y = if fltb y zero then Raise ValueError else Ok (sqrt_val L y).
Proof.
  unfold math_sqrt, math_1. rewrite (sqrt_nan L y), (sqrt_inf L y).
  destruct (fltb y zero) eqn:E.
  - rewrite (fltb_is_not_nan _ _ E), orb_true_r. reflexivity.
  - rewrite orb_false_r, andb_negb_r, andb_true_r.
    destruct (is_inf y) eqn:I; [|reflexivity].
    now rewrite (inf_is_not_finite _ I).
Qed.

(** [math.sin] raises exactly on an infinite argument. *)
Lemma math_sin_cases a :
  math_sin L a = if is_inf a then Raise ValueError else Ok (sin_val L a).
Proof.
  unfold math_sin, math_1. rewrite (sin_nan L a).
  destruct (is_inf a) eqn:I.
  - rewrite (inf_is_not_nan _ I). reflexivity.
  - rewrite orb_false_r, andb_negb_r.
    destruct (is_finite a) eqn:F; [|now rewrite andb_false_r].
    rewrite (finite_not_inf _ (at_most_one_is_finite _ (sin_range L a F))).
    reflexivity.
Qed.

(** [math.exp] returns on the sine of anything that is not infinite. *)
Lemma math_exp_of_sin a :
  is_inf a = false -> math_exp L (sin_val L a) = Ok (exp_val L (sin_val L a)).
Proof.
  intro I. unfold math_exp, math_1.
  destruct (is_nan a) eqn:N.
  - assert (Hs : is_nan (sin_val L a) = true) by (now rewrite (sin_nan L a), N).
    rewrite Hs. destruct (sin_val L a); try discriminate.
    cbn [is_nan is_finite negb andb].
    now rewrite !andb_false_r.
  - pose proof (sin_range L a (not_nan_not_inf_is_finite _ N I)) as Hr.
    pose proof (exp_range L _ Hr) as He.
    now rewrite (finite_not_nan _ He), (finite_not_inf _ He).
Qed.

(** The validation function returns its input when that lies in the domain,
    after 500 draws, and raises [ValueError] otherwise, before any draw. *)
Lemma execute_complex_validation_function_outcome x w :
  execute_complex_validation_function random L x w =
    if in_domain x
    then (Ok x, World (Nat.iter 500 (fun g => snd (randint random 1 10 g)) (gen w))
                  (stdout w))
    else (Raise ValueError, w).
Proof.
  unfold execute_complex_validation_function, in_domain.
  fold (shifted x). unfold bind at 1. unfold lift at 1.
  rewrite math_sqrt_cases.
  destruct (fltb (shifted x) zero) eqn:E; [reflexivity|]. cbn [negb andb].
  unfold bind at 1. unfold lift at 1. rewrite math_sin_cases.
  rewrite (sqrt_inf L (shifted x)), E, andb_true_r.
  destruct (is_inf (shifted x)) eqn:I; [reflexivity|]. cbn [negb].
  unfold bind at 1. unfold lift at 1.
  rewrite math_exp_of_sin
    by (now rewrite (sqrt_inf L (shifted x)), I).
  unfold bind at 1.
  destruct (randint_list_state 500 w) as (l & -> & _). reflexivity.
Qed.

(** The outcome of the validation function is decided by its argument
    alone, and nothing is printed. *)
Lemma execute_complex_validation_function_run x w :
  exists w',
    execute_complex_validation_function random L x w =
      (if in_domain x then Ok x else Raise ValueError, w')
    /\ stdout w' = stdout w.
Proof.
  rewrite execute_complex_validation_function_outcome.
  destruct (in_domain x); eauto.
Qed.

End Validation.

(** ** The normalizer *)

Section Properties.
Variable rng : Type.
Variable random : random_module rng.
Variable L : libm.

Implicit Types (w : world rng) (raw_data : dict) (metric_name : string).

Lemma skipped_count_valid v :
  valid_event_logs v = true -> exists n, skipped_count v = Ok n.
Proof.
  intro H. destruct (valid_event_logs_is_list _ H) as (logs & -> & Hl).
  unfold skipped_count. simpl. now apply count_skipped_valid.
Qed.

Lemma py_le_zero_int t : py_le_zero (JInt t) = Ok (t <=? 0).
Proof. reflexivity. Qed.

Lemma py_truediv_int s t :
  t <> 0 ->
  py_truediv (JInt s) (JInt t) =
    if is_inf (int_quotient s t) then Raise OverflowError
    else Ok (int_quotient s t).
Proof.
  intro Ht. unfold py_truediv. cbn [as_num].
  destruct (Z.eqb_spec t 0); [contradiction | reflexivity].
Qed.

Lemma parse_empty metric_name w :
  parse_and_clean_raw_data random L [] metric_name w = (Ok zero_metric, w).
Proof. reflexivity. Qed.

Lemma parse_nonpositive raw_data metric_name w n tv :
  skipped_count (dict_get raw_data "event_logs" (JList [])) = Ok n ->
  dict_lookup raw_data "total_test_cases" = Some tv ->
  py_le_zero tv = Ok true ->
  parse_and_clean_raw_data random L raw_data metric_name w = (Ok zero_metric, w).
Proof.
  intros Hn Ht Hle. unfold parse_and_clean_raw_data.
  rewrite (dict_lookup_nonempty _ _ Ht).
  unfold bind, lift, dict_item. now rewrite Hn, Ht, Hle.
Qed.

Lemma parse_positive raw_data metric_name w n tv sv x :
  skipped_count (dict_get raw_data "event_logs" (JList [])) = Ok n ->
  dict_lookup raw_data "total_test_cases" = Some tv ->
  py_le_zero tv = Ok false ->
  dict_lookup raw_data "successful_cases" = Some sv ->
  py_truediv sv tv = Ok x ->
  exists w',
    parse_and_clean_raw_data random L raw_data metric_name w =
      (if in_domain x then Ok (Metric tv sv x) else Raise ValueError, w')
    /\ stdout w' = (stdout w ++ [Filtered metric_name n])%list.
Proof.
  intros Hn Ht Hle Hs Hdiv. unfold parse_and_clean_raw_data.
  rewrite (dict_lookup_nonempty _ _ Ht).
  unfold bind, lift, dict_item. rewrite Hn, Ht, Hle, Hs, Hdiv.
  unfold print at 1.
  destruct (execute_complex_validation_function_run random L x
              (World (gen w) (stdout w ++ [Filtered metric_name n])))
    as (w' & -> & Hout).
  destruct (in_domain x); unfold ret; eauto.
Qed.

(** A division that raises stops the normalizer before it prints. *)
Lemma parse_division_raises raw_data metric_name w n tv sv e :
  skipped_count (dict_get raw_data "event_logs" (JList [])) = Ok n ->
  dict_lookup raw_data "total_test_cases" = Some tv ->
  py_le_zero tv = Ok false ->
  dict_lookup raw_data "successful_cases" = Some sv ->
  py_truediv sv tv = Raise e ->
  parse_and_clean_raw_data random L raw_data metric_name w = (Raise e, w).
Proof.
  intros Hn Ht Hle Hs Hdiv. unfold parse_and_clean_raw_data.
  rewrite (dict_lookup_nonempty _ _ Ht).
  unfold bind, lift, dict_item. now rewrite Hn, Ht, Hle, Hs, Hdiv.
Qed.

(** The value returned, or the exception raised, depends on the record
    alone. *)
Lemma parse_outcome raw_data metric_name w :
  fst (parse_and_clean_raw_data random L raw_data metric_name w)
  = outcome_of_record raw_data.
Proof.
  unfold outcome_of_record.
  destruct raw_data as [|kv rest]; [reflexivity|].
  set (raw_data := kv :: rest).
  unfold parse_and_clean_raw_data.
  change (dict_is_empty raw_data) with false. cbv iota.
  unfold bind at 1. unfold lift at 1.
  destruct (skipped_count (dict_get raw_data "event_logs" (JList []))) as [n|e];
    [|reflexivity].
  unfold bind at 1. unfold lift at 1.
  destruct (dict_item raw_data "total_test_cases") as [tv|e]; [|reflexivity].
  unfold bind at 1. unfold lift at 1.
  destruct (py_le_zero tv) as [[|]|e]; [reflexivity | | reflexivity].
  unfold bind at 1. unfold lift at 1.
  destruct (dict_item raw_data "successful_cases") as [sv|e]; [|reflexivity].
  unfold bind at 1. unfold lift at 1.
  destruct (py_truediv sv tv) as [x|e]; [|reflexivity].
  unfold bind, print.
  destruct (execute_complex_validation_function_run random L x
              (World (gen w) (stdout w ++ [Filtered metric_name n])))
    as (w' & -> & _).
  destruct (in_domain x); reflexivity.
Qed.

Lemma outcome_of_well_formed raw_data :
  well_formed raw_data = true -> exists m, outcome_of_record raw_data = Ok m.
Proof.
  unfold well_formed, outcome_of_record. intro H.
  apply andb_true_iff in H as [Hlogs H].
  destruct (skipped_count_valid _ Hlogs) as [n ->].
  destruct (dict_is_empty raw_data); [eauto|].
  unfold dict_item.
  destruct (dict_lookup raw_data "total_test_cases") as [tv|]; [|discriminate].
  destruct (py_le_zero tv) as [[|]|e]; [eauto | | discriminate].
  destruct (dict_lookup raw_data "successful_cases") as [sv|]; [|discriminate].
  destruct (py_truediv sv tv) as [x|e]; [|discriminate].
  rewrite H. eauto.
Qed.

Lemma outcome_returns_well_formed raw_data m :
  valid_event_logs (dict_get raw_data "event_logs" (JList [])) = true ->
  outcome_of_record raw_data = Ok m ->
  raw_data = [] \/ well_formed raw_data = true.
Proof.
  unfold well_formed, outcome_of_record. intros Hlogs H. rewrite Hlogs.
  destruct raw_data as [|kv rest]; [now left|]. right.
  set (raw_data := kv :: rest) in *.
  change (dict_is_empty raw_data) with false in H. cbv iota in H.
  destruct (skipped_count (dict_get raw_data "event_logs" (JList []))) as [n|e];
    [|discriminate].
  unfold dict_item in H.
  destruct (dict_lookup raw_data "total_test_cases") as [tv|]; [|discriminate].
  destruct (py_le_zero tv) as [[|]|e]; [reflexivity | | discriminate].
  destruct (dict_lookup raw_data "successful_cases") as [sv|]; [|discriminate].
  destruct (py_truediv sv tv) as [x|e]; [|discriminate].
  destruct (in_domain x); [reflexivity | discriminate].
Qed.

Lemma parse_returns raw_data metric_name w m :
  outcome_of_record raw_data = Ok m ->
  exists w', parse_and_clean_raw_data random L raw_data metric_name w = (Ok m, w').
Proof.
  intro H. pose proof (parse_outcome raw_data metric_name w) as Hp.
  destruct (parse_and_clean_raw_data random L raw_data metric_name w) as [r w'].
  cbn [fst] in Hp. rewrite Hp, H. eauto.
Qed.

Lemma parse_well_formed raw_data metric_name w :
  well_formed raw_data = true ->
  exists m w', parse_and_clean_raw_data random L raw_data metric_name w = (Ok m, w').
Proof.
  intro H. destruct (outcome_of_well_formed _ H) as [m Hm].
  exists m. now apply parse_returns.
Qed.

Lemma event_logs_of_set raw_data logs :
  dict_get (dict_set raw_data "event_logs" (JList logs)) "event_logs" (JList [])
  = JList logs.
Proof. unfold dict_get. now rewrite dict_lookup_set_same. Qed.

Lemma count_skipped_missing_status good o rest :
  forallb has_status good = true ->
  dict_lookup o "status" = None ->
  count_skipped (good ++ JObj o :: rest) = Raise (KeyError "status").
Proof.
  intros Hgood Ho. induction good as [|log good IH]; simpl.
  - unfold dict_item. now rewrite Ho.
  - simpl in Hgood. apply andb_true_iff in Hgood as [H1 H2].
    destruct (has_status_getitem _ H1) as [st ->]. now rewrite (IH H2).
Qed.

(** The normalizer on a record with integer counts and a positive total:
    the quotient may overflow, and may lie outside the domain of the
    validation function; the diagnostic line is printed once the quotient
    exists. *)
Lemma parse_int raw_data metric_name w n t s :
  skipped_count (dict_get raw_data "event_logs" (JList [])) = Ok n ->
  dict_lookup raw_data "total_test_cases" = Some (JInt t) ->
  dict_lookup raw_data "successful_cases" = Some (JInt s) ->
  0 < t ->
  exists w',
    parse_and_clean_raw_data random L raw_data metric_name w =
      (if is_inf (int_quotient s t) then Raise OverflowError
       else if in_domain (int_quotient s t)
            then Ok (Metric (JInt t) (JInt s) (int_quotient s t))
            else Raise ValueError, w')
    /\ stdout w' =
         (stdout w ++ if is_inf (int_quotient s t) then []
                      else [Filtered metric_name n])%list.
Proof.
  intros Hn Ht Hs Hpos.
  assert (Hle : py_le_zero (JInt t) = Ok false)
    by (rewrite py_le_zero_int; f_equal; apply Z.leb_gt; lia).
  pose proof (@py_truediv_int s t ltac:(lia)) as Hdiv.
  destruct (is_inf (int_quotient s t)).
  - exists w. split; [|now rewrite app_nil_r].
    now apply parse_division_raises with (n := n) (tv := JInt t) (sv := JInt s).
  - now apply parse_positive.
Qed.

Lemma parse_nonpositive_total raw_data metric_name w tv :
  valid_event_logs (dict_get raw_data "event_logs" (JList [])) = true ->
  dict_lookup raw_data "total_test_cases" = Some tv ->
  py_le_zero tv = Ok true ->
  parse_and_clean_raw_data random L raw_data metric_name w = (Ok zero_metric, w).
Proof.
  intros Hlogs Ht Hle.
  destruct (skipped_count_valid _ Hlogs) as [n Hn].
  now apply parse_nonpositive with (n := n) (tv := tv).
Qed.

(** ** The normalizer: claims C1, C2, C7, C8, C9, C10 *)

(** C1 (as amended). For every raw record of the schema ([event_logs]
    absent or a list of objects that each have a [status]) whose
    [total_test_cases] is an integer greater than 0 and whose
    [successful_cases] is an integer, the quotient
    [successful_cases / total_test_cases] decides what
    [parse_and_clean_raw_data] does. When no double is near enough (the
    quotient is beyond the range of the doubles) it raises [OverflowError];
    when the quotient times 1.0 plus 0.001 is negative it raises
    [ValueError]; in every other case it returns [rate] equal to that
    quotient, the double nearest to the exact ratio, with [success] and
    [total] copied from the record unchanged. Nothing is clamped: a quotient
    above 1 is returned as it is. *)
Theorem rate_is_exact_ratio raw_data metric_name w t s :
  valid_event_logs (dict_get raw_data "event_logs" (JList [])) = true ->
  dict_lookup raw_data "total_test_cases" = Some (JInt t) ->
  dict_lookup raw_data "successful_cases" = Some (JInt s) ->
  0 < t ->
  exists w',
    parse_and_clean_raw_data random L raw_data metric_name w =
      (if is_inf (int_quotient s t) then Raise OverflowError
       else if in_domain (int_quotient s t)
            then Ok (Metric (JInt t) (JInt s) (int_quotient s t))
            else Raise ValueError, w').
Proof.
  intros Hlogs Ht Hs Hpos.
  destruct (skipped_count_valid _ Hlogs) as [n Hn].
  destruct (@parse_int raw_data metric_name w n t s Hn Ht Hs Hpos) as (w' & H & _).
  eauto.
Qed.



(** C8 (as amended). [parse_and_clean_raw_data] is not total. Among the
    records whose [event_logs] is absent or a list of objects that each have
    a [status], it returns a normalized metric exactly on the empty record
    and on the well-formed ones: [total_test_cases] a number and, unless
    that is [<= 0], [successful_cases] a number whose quotient by the total
    exists as a double and lies in the domain of the validation function.
    It raises [KeyError] on a non-empty record of that kind that lacks
    [total_test_cases], on one whose [total_test_cases] is a positive
    integer and that lacks [successful_cases], and on every record whose
    [event_logs] is a list in which an object without [status] comes after
    entries that all have one. *)
Theorem normalizer_returns_on_well_formed_records :
  (forall raw_data metric_name w,
      raw_data = [] \/ well_formed raw_data = true ->
      exists m w',
        parse_and_clean_raw_data random L raw_data metric_name w = (Ok m, w'))
  /\ (forall raw_data metric_name w m w',
      valid_event_logs (dict_get raw_data "event_logs" (JList [])) = true ->
      parse_and_clean_raw_data random L raw_data metric_name w = (Ok m, w') ->
      raw_data = [] \/ well_formed raw_data = true)
  /\ (forall raw_data metric_name w,
      raw_data <> [] ->
      valid_event_logs (dict_get raw_data "event_logs" (JList [])) = true ->
      dict_lookup raw_data "total_test_cases" = None ->
      parse_and_clean_raw_data random L raw_data metric_name w =
        (Raise (KeyError "total_test_cases"), w))
  /\ (forall raw_data metric_name w t,
      valid_event_logs (dict_get raw_data "event_logs" (JList [])) = true ->
      dict_lookup raw_data "total_test_cases" = Some (JInt t) ->
      0 < t ->
      dict_lookup raw_data "successful_cases" = None ->
      parse_and_clean_raw_data random L raw_data metric_name w =
        (Raise (KeyError "successful_cases"), w))
  /\ (forall raw_data metric_name w good o rest,
      dict_lookup raw_data "event_logs" = Some (JList (good ++ JObj o :: rest)) ->
      forallb has_status good = true ->
      dict_lookup o "status" = None ->
      parse_and_clean_raw_data random L raw_data metric_name w =
        (Raise (KeyError "status"), w)).
Proof.
  split; [|split; [|split; [|split]]].
  - intros raw_data metric_name w [-> | H].
    + exists zero_metric, w. apply parse_empty.
    + now apply parse_well_formed.
  - intros raw_data metric_name w m w' Hlogs Hrun.
    apply outcome_returns_well_formed with (m := m); [exact Hlogs|].
    rewrite <- (parse_outcome raw_data metric_name w), Hrun. reflexivity.
  - intros raw_data metric_name w Hne Hlogs Ht.
    destruct (skipped_count_valid _ Hlogs) as [n Hn].
    unfold parse_and_clean_raw_data.
    destruct raw_data as [|kv rest]; [contradiction|].
    cbn [dict_is_empty]. unfold bind, lift, dict_item. now rewrite Hn, Ht.
  - intros raw_data metric_name w t Hlogs Ht Hpos Hs.
    destruct (skipped_count_valid _ Hlogs) as [n Hn].
    unfold parse_and_clean_raw_data.
    rewrite (dict_lookup_nonempty _ _ Ht).
    unfold bind, lift, dict_item. rewrite Hn, Ht, py_le_zero_int.
    destruct (Z.leb_spec t 0); [lia|]. now rewrite Hs.
  - intros raw_data metric_name w good o rest Hlogs Hgood Ho.
    unfold parse_and_clean_raw_data.
    rewrite (dict_lookup_nonempty _ _ Hlogs).
    unfold bind, lift, dict_get. rewrite Hlogs.
    unfold skipped_count. cbn [py_iter].
    now rewrite (@count_skipped_missing_status good o rest Hgood Ho).
Qed.

(** C9. [parse_and_clean_raw_data] is deterministic in its result: the
    metric returned (or the exception raised) for a raw record is the same
    in every state of the random generator and of the output, so calling
    it twice in a row on the same record yields identical results. *)
Theorem normalizer_deterministic raw_data metric_name :
  (forall w1 w2,
      fst (parse_and_clean_raw_data random L raw_data metric_name w1) =
      fst (parse_and_clean_raw_data random L raw_data metric_name w2))
  /\ (forall w,
      let first := parse_and_clean_raw_data random L raw_data metric_name w in
      let second := parse_and_clean_raw_data random L raw_data metric_name (snd first) in
      fst second = fst first).
Proof.
  split.
  - intros w1 w2. now rewrite !parse_outcome.
  - intro w. cbv zeta. now rewrite !parse_outcome.
Qed.

End Properties.

(** ** The evaluator: claim C3 *)

Lemma is_pass_status_of actual expected :
  is_pass (status_of actual expected) = py_ge actual expected.
Proof. unfold status_of. now destruct (py_ge actual expected). Qed.

Lemma status_of_pass actual expected :
  status_of actual expected = PASS <-> fleb expected actual = true.
Proof.
  unfold status_of, py_ge.
  destruct (fleb expected actual); split; congruence.
Qed.

Lemma status_of_zero expected :
  fltb zero expected = true -> status_of zero expected = FAIL.
Proof.
  destruct expected as [s|s| |s m e]; try discriminate;
    destruct s; try discriminate; reflexivity.
Qed.

Lemma SFcompare_swap (x y : float) :
  SFcompare y x = option_map CompOpp (SFcompare x y).
Proof.
  destruct x as [sx|sx| |sx mx ex], y as [sy|sy| |sy my ey];
    try destruct sx; try destruct sy; try reflexivity;
    cbn [SFcompare option_map]; f_equal;
    assert (E : Pos.compare_cont Eq my mx = CompOpp (Pos.compare_cont Eq mx my))
      by (rewrite Pos.compare_cont_antisym; reflexivity);
    rewrite (Z.compare_antisym ex ey), E;
    destruct (ex ?= ey); cbn [CompOpp]; try reflexivity;
    destruct (Pos.compare_cont Eq mx my); reflexivity.
Qed.

(** [a == b] gives [b <= a]. *)
Lemma feqb_fleb (a b : float) : feqb a b = true -> fleb b a = true.
Proof.
  unfold feqb, fleb, SFeqb, SFleb. rewrite (SFcompare_swap a b).
  destruct (SFcompare a b) as [[| |]|]; try discriminate. reflexivity.
Qed.

Lemma fleb_refl (r : float) : is_nan r = false -> fleb r r = true.
Proof.
  destruct r as [s|s| |s m e]; try destruct s; try reflexivity; try discriminate;
    intros _; unfold fleb, SFleb; cbn [SFcompare];
    rewrite Z.compare_refl, Pos.compare_cont_refl; reflexivity.
Qed.

Lemma dict_lookup_unique (V : Type) (d : list (string * V)) k v :
  NoDup (dict_keys d) -> In (k, v) d -> dict_lookup d k = Some v.
Proof.
  induction d as [|[k0 v0] d IH]; simpl; intros Hnd Hin; [contradiction|].
  inversion Hnd as [|? ? Hnotin Hnd']; subst.
  destruct Hin as [Heq | Hin].
  - inversion Heq; subst. now rewrite String.eqb_refl.
  - destruct (String.eqb_spec k0 k) as [->|Hne].
    + exfalso. apply Hnotin. apply in_map_iff. now exists (k, v).
    + now apply IH.
Qed.

Lemma forallb_same_elements (A : Type) (f : A -> bool) l1 l2 :
  (forall x, In x l1 <-> In x l2) -> forallb f l1 = forallb f l2.
Proof.
  intro H. apply eq_true_iff_eq. rewrite !forallb_forall.
  split; intros Hall x Hx; apply Hall; now apply H.
Qed.

Lemma forallb_of_map (A B : Type) (f : B -> bool) (g : A -> B) l :
  forallb f (map g l) = forallb (fun x => f (g x)) l.
Proof. induction l as [|x l IH]; simpl; [reflexivity | now rewrite IH]. Qed.

Lemma forallb_agree (A : Type) (f g : A -> bool) l :
  (forall x, In x l -> f x = g x) -> forallb f l = forallb g l.
Proof.
  induction l as [|x l IH]; simpl; intro H; [reflexivity|].
  rewrite (H x) by auto. rewrite IH by auto. reflexivity.
Qed.

Lemma build_tables_summary items processed :
  (forall k, In k (dict_keys items) -> In k (dict_keys processed)) ->
  exists calculation,
    build_tables items processed = Ok (map (summary_of processed) items, calculation).
Proof.
  induction items as [|[key goal_data] items IH]; simpl; intro Hkeys.
  - eauto.
  - assert (Hk : In key (dict_keys processed)) by auto.
    apply dict_lookup_in in Hk.
    unfold dict_item, summary_of, rate_of. simpl.
    destruct (dict_lookup processed key) as [m|] eqn:Hm; [|congruence].
    destruct IH as [calc ->]; [auto|]. eauto.
Qed.

Lemma build_tables_missing items processed key :
  In key (dict_keys items) ->
  dict_lookup processed key = None ->
  exists k, In k (dict_keys items) /\ dict_lookup processed k = None /\
            build_tables items processed = Raise (KeyError k).
Proof.
  induction items as [|[k0 g0] items IH]; simpl; intros Hin Hnone; [contradiction|].
  unfold dict_item.
  destruct (dict_lookup processed k0) as [m|] eqn:Hm.
  - destruct Hin as [<- | Hin]; [congruence|].
    destruct (IH Hin Hnone) as (k & Hk & Hkn & ->). eauto.
  - exists k0. auto.
Qed.

Lemma all_passed_conjunction goals keys processed :
  (forall k, In k keys -> In k (dict_keys processed) /\ In k (dict_keys goals)) ->
  all_passed goals keys processed =
    Ok (forallb (fun k => py_ge (rate_of processed k) (threshold_of goals k)) keys).
Proof.
  induction keys as [|key keys IH]; simpl; intro Hkeys; [reflexivity|].
  destruct (Hkeys key (or_introl eq_refl)) as [Hp Hg].
  apply dict_lookup_in in Hp. apply dict_lookup_in in Hg.
  unfold dict_item, rate_of, threshold_of.
  destruct (dict_lookup processed key) as [m|]; [|congruence].
  destruct (dict_lookup goals key) as [g|]; [|congruence].
  destruct (py_ge (rate m) (expected_value g)); [|reflexivity].
  apply IH. auto.
Qed.

Lemma all_passed_missing_goal goals key keys processed m :
  dict_lookup processed key = Some m ->
  dict_lookup goals key = None ->
  all_passed goals (key :: keys) processed = Raise (KeyError key).
Proof. intros Hm Hg. simpl. unfold dict_item. now rewrite Hm, Hg. Qed.

Lemma statuses_conjunction goals processed :
  NoDup (dict_keys goals) ->
  (forall k, In k (dict_keys goals) <-> In k (dict_keys processed)) ->
  forallb (fun k => py_ge (rate_of processed k) (threshold_of goals k))
    (dict_keys processed) =
  forallb (fun row => is_pass (row_status row)) (map (summary_of processed) goals).
Proof.
  intros Hnd Hkeys.
  rewrite (forallb_same_elements _ (dict_keys processed) (dict_keys goals))
    by (intro; symmetry; apply Hkeys).
  unfold dict_keys. rewrite !forallb_of_map.
  apply forallb_agree. intros [k g] Hin. simpl.
  rewrite is_pass_status_of. unfold threshold_of.
  now rewrite (dict_lookup_unique _ _ _ Hnd Hin).
Qed.


(** ** The loader and the report: claims C4, C5 and C6 *)

Section Report.
Variable rng : Type.
Variable random : random_module rng.
Variable L : libm.
Variable get_simulated_file_content : string -> rng -> string * rng.
Variable json_loads : string -> result json.
Variable file_paths : list (string * string).

Implicit Types (w : world rng) (file_path metric_name : string).

Local Abbreviation load :=
  (load_data_from_simulated_file random get_simulated_file_content json_loads
     file_paths).
Local Abbreviation parse := (parse_and_clean_raw_data random L).
Local Abbreviation ingest_items :=
  (ingest random L get_simulated_file_content json_loads file_paths).

(** On a configured path the loader returns, either the empty record or the
    decoded object, which then has a timestamp. *)
Lemma load_configured file_path metric_name w :
  metric_name_of_path file_paths file_path = Ok metric_name ->
  exists d w',
    load file_path w = (Ok d, w') /\
    (d = [] \/
     (json_loads (fst (get_simulated_file_content metric_name (gen w))) = Ok (JObj d)
      /\ dict_mem d "timestamp" = true)).
Proof.
  intro Hname. unfold load_data_from_simulated_file.
  unfold bind at 1. unfold lift at 1. rewrite Hname.
  unfold bind at 1. unfold draw at 1.
  destruct (get_simulated_file_content metric_name (gen w)) as [content g].
  cbn [fst]. unfold bind at 1. unfold print at 1.
  unfold try_except, bind, draw, lift, print, raise, ret. cbn [gen stdout].
  destruct (uniform random (1 # 100) (1 # 10) g) as [delay g'].
  destruct (json_loads content) as [data|e]; [|eauto].
  destruct (has_timestamp data) as [[|]|e] eqn:Hts; cbn [negb]; [|eauto|eauto].
  destruct data; eauto.
  do 2 eexists. split; [reflexivity|]. right. split; [reflexivity|].
  simpl in Hts. congruence.
Qed.

Lemma load_unusable file_path metric_name w :
  metric_name_of_path file_paths file_path = Ok metric_name ->
  content_unusable json_loads (fst (get_simulated_file_content metric_name (gen w))) ->
  exists w', load file_path w = (Ok [], w').
Proof.
  intros Hname Hbad.
  destruct (load_configured file_path w Hname) as (d & w' & Hrun & [-> | [Hd Hts]]);
    [eauto|].
  exfalso. destruct Hbad as [[e He] | (data & e & Hdata & Hno)].
  - congruence.
  - rewrite Hd in Hdata. inversion Hdata; subst data.
    unfold rejection in Hno. cbn [has_timestamp] in Hno.
    rewrite Hts in Hno. discriminate.
Qed.

Lemma load_usable file_path metric_name w o :
  metric_name_of_path file_paths file_path = Ok metric_name ->
  json_loads (fst (get_simulated_file_content metric_name (gen w))) = Ok (JObj o) ->
  dict_mem o "timestamp" = true ->
  exists w', load file_path w = (Ok o, w').
Proof.
  intros Hname Hdata Hts. unfold load_data_from_simulated_file.
  unfold bind at 1. unfold lift at 1. rewrite Hname.
  unfold bind at 1. unfold draw at 1.
  destruct (get_simulated_file_content metric_name (gen w)) as [content g].
  cbn [fst] in Hdata. unfold bind at 1. unfold print at 1.
  unfold try_except, bind, draw, lift, print, raise, ret. cbn [gen stdout].
  destruct (uniform random (1 # 100) (1 # 10) g) as [delay g'].
  rewrite Hdata. cbn [has_timestamp]. rewrite Hts. cbn [negb]. eauto.
Qed.

Lemma load_unknown_path file_path w :
  (forall k, ~ In (k, file_path) file_paths) ->
  load file_path w = (Raise IndexError, w).
Proof.
  intro Hnot. unfold load_data_from_simulated_file, bind, lift, metric_name_of_path.
  destruct (filter (fun kv => String.eqb (snd kv) file_path) file_paths)
    as [|[k p] rest] eqn:Hf; [reflexivity|].
  exfalso. assert (Hin : In (k, p) (filter (fun kv => String.eqb (snd kv) file_path) file_paths))
    by (rewrite Hf; now left).
  apply filter_In in Hin as [Hin Heq]. simpl in Heq.
  apply String.eqb_eq in Heq. subst p. now apply (Hnot k).
Qed.

Lemma metric_name_of_path_in k file_path :
  In (k, file_path) file_paths ->
  exists metric_name, metric_name_of_path file_paths file_path = Ok metric_name.
Proof.
  intro Hin. unfold metric_name_of_path.
  destruct (filter (fun kv => String.eqb (snd kv) file_path) file_paths)
    as [|[k' p'] rest] eqn:Hf; [|eauto].
  exfalso.
  assert (H : In (k, file_path)
                (filter (fun kv => String.eqb (snd kv) file_path) file_paths)).
  { apply filter_In. split; [assumption|]. apply String.eqb_refl. }
  now rewrite Hf in H.
Qed.

(** With pairwise distinct paths, the loader finds back the name under
    which a path is configured. *)
Lemma metric_name_of_path_unique k file_path :
  NoDup (map snd file_paths) ->
  In (k, file_path) file_paths ->
  metric_name_of_path file_paths file_path = Ok k.
Proof.
  unfold metric_name_of_path.
  induction file_paths as [|[k0 p0] l IH]; simpl; intros Hnd Hin; [contradiction|].
  inversion Hnd as [|? ? Hnotin Hnd']; subst.
  destruct (String.eqb_spec p0 file_path) as [->|Hne].
  - destruct Hin as [Heq | Hin].
    + now inversion Heq.
    + exfalso. apply Hnotin. apply in_map_iff. now exists (k, file_path).
  - destruct Hin as [Heq | Hin].
    + inversion Heq. congruence.
    + now apply IH.
Qed.

Lemma dict_lookup_some_in (V : Type) (d : list (string * V)) k v :
  dict_lookup d k = Some v -> In (k, v) d.
Proof.
  induction d as [|[k0 v0] d IH]; simpl; [discriminate|].
  destruct (String.eqb_spec k0 k) as [->|Hne]; intro H.
  - inversion H. now left.
  - right. now apply IH.
Qed.

Lemma bind_ok (A B : Type) (c : M rng A) (k : A -> M rng B) w b w' :
  bind c k w = (Ok b, w') ->
  exists a w1, c w = (Ok a, w1) /\ k a w1 = (Ok b, w').
Proof.
  unfold bind. destruct (c w) as [[a|e] w1]; [eauto | discriminate].
Qed.

(** *** The ingestion loop *)

(** The names under which the loop stores a metric. *)
Lemma ingest_keys items :
  forall acc w processed w',
    ingest_items items acc w = (Ok processed, w') ->
    forall k, In k (dict_keys processed) <->
              In k (dict_keys acc) \/
              (In k (dict_keys items) /\ k <> "Configuration Check Log").
Proof.
  induction items as [|[metric_name file_path] items IH];
    intros acc w processed w' Hrun k.
  - simpl in Hrun. inversion Hrun; subst. simpl. tauto.
  - cbn [ingest] in Hrun. cbn [dict_keys map fst].
    destruct (String.eqb_spec metric_name "Configuration Check Log") as [->|Hne].
    + rewrite (IH _ _ _ _ Hrun k). unfold dict_keys. cbn [In].
      split; [tauto|]. intros [H | [[H | H] Hk]]; [tauto | congruence | tauto].
    + apply bind_ok in Hrun as (raw_data & w1 & _ & Hrun).
      apply bind_ok in Hrun as (m & w2 & _ & Hrun).
      rewrite (IH _ _ _ _ Hrun k), dict_keys_set. unfold dict_keys. cbn [In].
      split; [intros [[->|H]|H]; tauto|].
      intros [H | [[H | H] Hk]]; [tauto | subst; tauto | tauto].
Qed.

Section Sources.
(** Every configured metric source either fails or delivers. *)
Hypothesis distinct_paths : NoDup (map snd file_paths).
Hypothesis sources :
  forall metric_name file_path,
    In (metric_name, file_path) file_paths ->
    metric_name <> "Configuration Check Log" ->
    source_fails get_simulated_file_content json_loads metric_name \/
    source_delivers get_simulated_file_content json_loads metric_name.

Lemma fails_and_delivers metric_name w :
  source_fails get_simulated_file_content json_loads metric_name ->
  source_delivers get_simulated_file_content json_loads metric_name ->
  False.
Proof.
  intros Hf Hd. specialize (Hf (gen w)). specialize (Hd (gen w)).
  destruct Hd as (o & Ho & Hts & _).
  destruct Hf as [[e He] | (data & e & Hdata & Hno)]; [congruence|].
  rewrite Ho in Hdata. inversion Hdata; subst data.
  unfold rejection in Hno. cbn [has_timestamp] in Hno.
  rewrite Hts in Hno. discriminate.
Qed.

(** One turn of the loop: load, then normalize. *)
Lemma load_and_parse metric_name file_path w :
  In (metric_name, file_path) file_paths ->
  metric_name <> "Configuration Check Log" ->
  exists raw_data w1 m w2,
    load file_path w = (Ok raw_data, w1) /\
    parse raw_data metric_name w1 = (Ok m, w2) /\
    (source_fails get_simulated_file_content json_loads metric_name ->
     m = zero_metric).
Proof.
  intros Hin Hne.
  pose proof (metric_name_of_path_unique _ _ distinct_paths Hin) as Hname.
  destruct (sources _ Hin Hne) as [Hf | Hd].
  - destruct (load_unusable file_path w Hname (Hf (gen w))) as [w1 Hload].
    exists [], w1, zero_metric, w1. auto.
  - destruct (Hd (gen w)) as (o & Ho & Hts & Hwf).
    destruct (load_usable file_path w Hname Ho Hts) as [w1 Hload].
    destruct (parse_well_formed random L o metric_name w1 Hwf) as (m & w2 & Hparse).
    exists o, w1, m, w2. repeat split; auto.
    intro Hf. exfalso. exact (fails_and_delivers w Hf Hd).
Qed.

Lemma ingest_runs items :
  incl items file_paths ->
  forall acc w,
    (forall k m, dict_lookup acc k = Some m ->
                 source_fails get_simulated_file_content json_loads k ->
                 m = zero_metric) ->
    exists processed w',
      ingest_items items acc w = (Ok processed, w') /\
      (forall k m, dict_lookup processed k = Some m ->
                   source_fails get_simulated_file_content json_loads k ->
                   m = zero_metric).
Proof.
  induction items as [|[metric_name file_path] items IH]; intros Hincl acc w Hacc.
  - exists acc, w. split; [reflexivity | exact Hacc].
  - assert (Hin : In (metric_name, file_path) file_paths)
      by (apply Hincl; now left).
    assert (Hincl' : incl items file_paths)
      by (intros x Hx; apply Hincl; now right).
    cbn [ingest].
    destruct (String.eqb_spec metric_name "Configuration Check Log") as [->|Hne].
    + now apply IH.
    + destruct (@load_and_parse metric_name file_path w Hin Hne)
        as (raw_data & w1 & m & w2 & Hload & Hparse & Hzero).
      unfold bind at 1. rewrite Hload.
      unfold bind at 1. rewrite Hparse.
      apply IH; [assumption|].
      intros k m' Hk Hf.
      destruct (string_dec metric_name k) as [->|Hneq].
      * rewrite dict_lookup_set_same in Hk. inversion Hk; subst. auto.
      * rewrite dict_lookup_set_other in Hk by assumption. eauto.
Qed.
End Sources.

(** *** The report *)

Variable goals : list (string * goal).

Local Abbreviation report_run :=
  (generate_security_and_resilience_report random L get_simulated_file_content
     json_loads file_paths goals).

Ltac step_print := unfold bind at 1; unfold print at 1; cbv beta iota.
Ltac step_lift H := unfold bind at 1; unfold lift at 1; rewrite H; cbv beta iota.
Ltac step_run H := unfold bind at 1; rewrite H; cbv beta iota.

(** A report that is produced went through ingestion, both tables and the
    overall verdict. *)
Lemma report_stages w rep w' :
  report_run w = (Ok rep, w') ->
  exists processed w1 w2 summary calculation overall,
    ingest_items file_paths [] w1 = (Ok processed, w2) /\
    build_tables goals processed = Ok (summary, calculation) /\
    all_passed goals (dict_keys processed) processed = Ok overall /\
    rep = Report summary calculation overall.
Proof.
  unfold generate_security_and_resilience_report. intro H.
  apply bind_ok in H as (? & w1 & _ & H).
  apply bind_ok in H as (cp & w2 & _ & H).
  apply bind_ok in H as (cd & w3 & _ & H).
  apply bind_ok in H as (? & w4 & _ & H).
  apply bind_ok in H as (? & w5 & _ & H).
  apply bind_ok in H as (? & w6 & _ & H).
  apply bind_ok in H as (processed & w7 & Hing & H).
  apply bind_ok in H as (? & w8 & _ & H).
  apply bind_ok in H as (? & w9 & _ & H).
  apply bind_ok in H as ([summary calculation] & w10 & Htab & H).
  apply bind_ok in H as (? & w11 & _ & H).
  apply bind_ok in H as (? & w12 & _ & H).
  apply bind_ok in H as (? & w13 & _ & H).
  apply bind_ok in H as (overall & w14 & Hall & H).
  apply bind_ok in H as (? & w15 & _ & H).
  unfold lift in Htab, Hall. inversion Htab. inversion Hall. inversion H.
  exists processed, w6, w7, summary, calculation, overall. auto.
Qed.

(** A goal without a metric stops the report. *)
Lemma report_raises_on_missing_metric key w :
  In key (dict_keys goals) ->
  ~ In key (dict_keys file_paths) \/ key = "Configuration Check Log" ->
  exists e w', report_run w = (Raise e, w').
Proof.
  intros Hgoal Hmissing.
  unfold generate_security_and_resilience_report.
  step_print.
  unfold bind at 1. unfold lift at 1.
  destruct (dict_item file_paths "Configuration Check Log") as [cp|e]; [|eauto].
  unfold bind at 1.
  match goal with |- context [load_data_from_simulated_file _ _ _ _ cp ?w] =>
    destruct (load_data_from_simulated_file random get_simulated_file_content
                json_loads file_paths cp w) as [[cd|e] w2] end; [|eauto].
  do 3 step_print.
  unfold bind at 1.
  match goal with |- context [ingest _ _ _ _ _ file_paths [] ?w] =>
    destruct (ingest random L get_simulated_file_content json_loads file_paths
                file_paths [] w) as [[processed|e] w3] eqn:Hing end; [|eauto].
  step_print. unfold bind at 1. unfold draw at 1. cbn [gen stdout].
  match goal with |- context [getrandbits random 32 ?g] =>
    destruct (getrandbits random 32 g) as [checksum g'] end.
  assert (Hnone : dict_lookup processed key = None).
  { apply dict_lookup_none. rewrite (ingest_keys _ _ _ Hing key). simpl. tauto. }
  destruct (build_tables_missing goals processed key Hgoal Hnone) as (k & _ & _ & Hb).
  unfold bind at 1. unfold lift at 1. rewrite Hb. eauto.
Qed.

(** In a configuration whose paths are distinct, whose goals are named
    after the metric sources and whose sources all fail or deliver, the
    report is produced, and a failing source shows as rate 0. *)
Lemma report_runs w :
  NoDup (map snd file_paths) ->
  In "Configuration Check Log" (dict_keys file_paths) ->
  (forall k, In k (dict_keys goals) <->
             In k (dict_keys file_paths) /\ k <> "Configuration Check Log") ->
  (forall metric_name file_path,
      In (metric_name, file_path) file_paths ->
      metric_name <> "Configuration Check Log" ->
      source_fails get_simulated_file_content json_loads metric_name \/
      source_delivers get_simulated_file_content json_loads metric_name) ->
  exists rep w',
    report_run w = (Ok rep, w') /\
    forall metric_name goal_data,
      In (metric_name, goal_data) goals ->
      source_fails get_simulated_file_content json_loads metric_name ->
      In (SummaryRow (description goal_data) (expected_value goal_data) zero
            (status_of zero (expected_value goal_data)))
         (summary_table_data rep).
Proof.
  intros Hdistinct Hcfg Hgoals Hsources.
  apply dict_lookup_in in Hcfg.
  destruct (dict_lookup file_paths "Configuration Check Log") as [cp|] eqn:Hcp;
    [|congruence].
  destruct (metric_name_of_path_in _ _ (dict_lookup_some_in _ _ Hcp)) as [cname Hcname].
  unfold generate_security_and_resilience_report.
  step_print.
  unfold bind at 1. unfold lift at 1. unfold dict_item. rewrite Hcp.
  cbv beta iota. unfold bind at 1.
  match goal with |- context [load_data_from_simulated_file _ _ _ _ cp ?w] =>
    destruct (load_configured cp w Hcname) as (cd & w2 & Hload & _) end.
  rewrite Hload. cbv beta iota.
  do 3 step_print. unfold bind at 1.
  match goal with |- context [ingest _ _ _ _ _ file_paths [] ?w] =>
    destruct (ingest_runs Hdistinct Hsources (incl_refl file_paths) [] w)
      as (processed & w3 & Hing & Hzero) end; [discriminate|].
  rewrite Hing. cbv beta iota.
  step_print. unfold bind at 1. unfold draw at 1. cbn [gen stdout].
  match goal with |- context [getrandbits random 32 ?g] =>
    destruct (getrandbits random 32 g) as [checksum g'] end.
  assert (Hkeys : forall k, In k (dict_keys goals) <-> In k (dict_keys processed)).
  { intro k. rewrite (ingest_keys _ _ _ Hing k), Hgoals. simpl. tauto. }
  destruct (build_tables_summary goals processed) as [calc Hb];
    [intros k Hk; now apply Hkeys|].
  step_lift Hb.
  do 3 step_print.
  unfold bind at 1. unfold lift at 1.
  rewrite all_passed_conjunction
    by (intros k Hk; split; [|apply Hkeys]; exact Hk).
  step_print. unfold ret.
  do 2 eexists. split; [reflexivity|].
  intros metric_name goal_data Hin Hfails. cbn [summary_table_data].
  apply in_map_iff. exists (metric_name, goal_data). split; [|assumption].
  unfold summary_of, rate_of. cbn [fst snd].
  assert (Hk : In metric_name (dict_keys processed)).
  { apply Hkeys. apply in_map_iff. now exists (metric_name, goal_data). }
  apply dict_lookup_in in Hk.
  destruct (dict_lookup processed metric_name) as [m|] eqn:Hm; [|congruence].
  rewrite (Hzero _ _ Hm Hfails). reflexivity.
Qed.


(** The rows of the summary table are the goals, each with the rate of its
    metric. *)
Lemma build_tables_rows gs processed summary calculation :
  build_tables gs processed = Ok (summary, calculation) ->
  summary = map (summary_of processed) gs /\
  (forall k, In k (dict_keys gs) -> In k (dict_keys processed)).
Proof.
  intro H.
  assert (Hkeys : forall k, In k (dict_keys gs) -> In k (dict_keys processed)).
  { intros k Hk. apply dict_lookup_in. intro Hnone.
    destruct (build_tables_missing gs processed k Hk Hnone) as (k' & _ & _ & Hraise).
    congruence. }
  split; [|exact Hkeys].
  destruct (build_tables_summary gs processed Hkeys) as [calc Hb].
  congruence.
Qed.

(** A verdict [True]: every metric has a goal and reaches it. *)
Lemma all_passed_true gs keys processed :
  all_passed gs keys processed = Ok true ->
  forall k, In k keys ->
    exists m g, dict_lookup processed k = Some m /\ dict_lookup gs k = Some g /\
                py_ge (rate m) (expected_value g) = true.
Proof.
  induction keys as [|key keys IH]; simpl; intros H k Hk; [contradiction|].
  unfold dict_item in H.
  destruct (dict_lookup processed key) as [m|] eqn:Hm; [|discriminate].
  destruct (dict_lookup gs key) as [g|] eqn:Hg; [|discriminate].
  destruct (py_ge (rate m) (expected_value g)) eqn:Hge; [|discriminate].
  destruct Hk as [<- | Hk]; [eauto | now apply IH].
Qed.

(** A verdict [False]: some metric has a goal and misses it. *)
Lemma all_passed_false gs keys processed :
  all_passed gs keys processed = Ok false ->
  exists k m g, In k keys /\ dict_lookup processed k = Some m /\
                dict_lookup gs k = Some g /\
                py_ge (rate m) (expected_value g) = false.
Proof.
  induction keys as [|key keys IH]; simpl; intro H; [discriminate|].
  unfold dict_item in H.
  destruct (dict_lookup processed key) as [m|] eqn:Hm; [|discriminate].
  destruct (dict_lookup gs key) as [g|] eqn:Hg; [|discriminate].
  destruct (py_ge (rate m) (expected_value g)) eqn:Hge.
  - destruct (IH H) as (k & m' & g' & Hk & H'). exists k, m', g'. auto.
  - exists key, m, g. auto.
Qed.

(** Whenever both the tables and the verdict are computed, the verdict is
    the conjunction of the statuses. *)
Lemma verdict_of_tables gs processed summary calculation overall :
  NoDup (dict_keys gs) ->
  build_tables gs processed = Ok (summary, calculation) ->
  all_passed gs (dict_keys processed) processed = Ok overall ->
  overall = forallb (fun row => is_pass (row_status row)) summary.
Proof.
  intros Hnd Hb Hall.
  destruct (build_tables_rows _ _ Hb) as [-> Hkeys].
  destruct overall.
  - symmetry. apply forallb_forall. intros row Hrow.
    apply in_map_iff in Hrow as ([k g] & <- & Hin).
    assert (Hk : In k (dict_keys processed))
      by (apply Hkeys; apply in_map_iff; now exists (k, g)).
    destruct (all_passed_true _ _ _ Hall k Hk) as (m & g' & Hm & Hg & Hge).
    rewrite (dict_lookup_unique _ _ _ Hnd Hin) in Hg. inversion Hg; subst g'.
    unfold summary_of, rate_of. cbn [fst snd row_status].
    rewrite Hm, is_pass_status_of. exact Hge.
  - symmetry. apply not_true_is_false. intro Hall'.
    rewrite forallb_forall in Hall'.
    destruct (all_passed_false _ _ _ Hall) as (k & m & g & _ & Hm & Hg & Hge).
    specialize (Hall' (summary_of processed (k, g))).
    unfold summary_of, rate_of in Hall'. cbn [fst snd row_status] in Hall'.
    rewrite Hm, is_pass_status_of, Hge in Hall'.
    assert (Htrue : false = true); [|discriminate].
    apply Hall'. apply in_map_iff. exists (k, g). split.
    + unfold summary_of, rate_of. cbn [fst snd]. now rewrite Hm.
    + now apply dict_lookup_some_in.
Qed.

(** The verdict of a produced report is the conjunction of its statuses. *)
Lemma report_verdict w rep w' :
  NoDup (dict_keys goals) ->
  report_run w = (Ok rep, w') ->
  all_metrics_passed rep =
    forallb (fun row => is_pass (row_status row)) (summary_table_data rep).
Proof.
  intros Hnd Hrun.
  destruct (report_stages _ Hrun)
    as (processed & w1 & w2 & summary & calc & overall & Hing & Hb & Hall & ->).
  cbn [all_metrics_passed summary_table_data].
  exact (verdict_of_tables _ _ Hnd Hb Hall).
Qed.

(** C4 (as amended). Whenever the report is produced, the overall verdict
    equals the logical AND of all per-metric PASS/FAIL statuses, so it is
    false whenever at least one per-metric verdict is FAIL; it is vacuously
    true when the set of evaluated metrics is empty. The verdict looks up a
    goal for every metric: with an empty goal set it is computed without
    error only if there is no metric either, otherwise [KeyError] is
    raised. *)
Theorem overall_verdict_is_conjunction :
  (forall gs processed summary calculation overall,
      NoDup (dict_keys gs) ->
      build_tables gs processed = Ok (summary, calculation) ->
      all_passed gs (dict_keys processed) processed = Ok overall ->
      overall = forallb (fun row => is_pass (row_status row)) summary /\
      ((exists row, In row summary /\ row_status row = FAIL) -> overall = false))
  /\ (forall gs,
        all_passed gs (dict_keys (@nil (string * metric))) [] = Ok true)
  /\ (forall key m processed,
        all_passed [] (dict_keys ((key, m) :: processed)) ((key, m) :: processed)
        = Raise (KeyError key))
  /\ (forall w rep w',
        NoDup (dict_keys goals) ->
        report_run w = (Ok rep, w') ->
        all_metrics_passed rep =
          forallb (fun row => is_pass (row_status row)) (summary_table_data rep)).
Proof.
  split; [|split; [|split]].
  - intros gs processed summary calculation overall Hnd Hb Hall.
    pose proof (verdict_of_tables _ _ Hnd Hb Hall) as Hv.
    split; [exact Hv|].
    intros (row & Hin & Hfail). rewrite Hv.
    apply not_true_is_false. intro Htrue.
    rewrite forallb_forall in Htrue. specialize (Htrue row Hin).
    rewrite Hfail in Htrue. discriminate.
  - reflexivity.
  - intros key m processed. apply all_passed_missing_goal with (m := m).
    + simpl. now rewrite String.eqb_refl.
    + reflexivity.
  - intros w rep w' Hnd Hrun. exact (@report_verdict w rep w' Hnd Hrun).
Qed.


(** C6. For every goal whose metric name has no entry among the normalized
    metrics, the evaluation loop raises [KeyError] instead of skipping the
    goal, and the error propagates: report generation is aborted. *)
Theorem goal_without_metric_fails_loudly :
  (forall gs processed key,
      In key (dict_keys gs) ->
      dict_lookup processed key = None ->
      exists k, In k (dict_keys gs) /\ dict_lookup processed k = None /\
                build_tables gs processed = Raise (KeyError k))
  /\ (forall key w,
        In key (dict_keys goals) ->
        ~ In key (dict_keys file_paths) \/ key = "Configuration Check Log" ->
        exists e w', report_run w = (Raise e, w')).
Proof.
  split.
  - exact build_tables_missing.
  - intros key w. apply report_raises_on_missing_metric.
Qed.
End Report.


(** * The claims on concrete inputs *)

Import Run.

(** C1: the claim as stated fails on a record with a negative
    [successful_cases]: [total_test_cases] is 1, and the normalizer raises
    [ValueError] (from [math.sqrt]) instead of returning the rate -1.0. *)
Lemma negative_success_raises :
  dict_lookup (Reference.record 1 (-1) []) "total_test_cases" = Some (JInt 1) /\
  0 < 1 /\
  parse (Reference.record 1 (-1) []) "Anomaly Detection Response Rate" Reference.w0
    = (Raise ValueError,
       World 42 [Filtered "Anomaly Detection Response Rate" 0]) /\
  ~ (exists m w',
        parse (Reference.record 1 (-1) []) "Anomaly Detection Response Rate"
          Reference.w0 = (Ok m, w')).
Proof.
  assert (H : parse (Reference.record 1 (-1) []) "Anomaly Detection Response Rate"
                Reference.w0
              = (Raise ValueError,
                 World 42 [Filtered "Anomaly Detection Response Rate" 0]))
    by (vm_compute; reflexivity).
  repeat split; try reflexivity; try exact H.
  intros (m & w' & Hm). rewrite H in Hm. discriminate.
Qed.

(** C1 fails as well on a record whose quotient is beyond the doubles:
    [10 ** 400 / 1] raises [OverflowError], before anything is printed. *)
Example huge_success_overflows :
  parse (Reference.record 1 (10 ^ 400) []) "Anomaly Detection Response Rate"
    Reference.w0 = (Raise OverflowError, Reference.w0).
Proof. vm_compute. reflexivity. Qed.

(** And more successes than tests need not give a rate above 1: the
    quotient is rounded, [(2 ** 53 + 1) / 2 ** 53] is exactly 1.0. *)
Example ratio_above_one_rounds_to_one :
  2 ^ 53 < 2 ^ 53 + 1 /\
  fst (parse (Reference.record (2 ^ 53) (2 ^ 53 + 1) [])
         "Anomaly Detection Response Rate" Reference.w0)
  = Ok (Metric (JInt (2 ^ 53)) (JInt (2 ^ 53 + 1)) one) /\
  fltb one one = false.
Proof. split; [reflexivity|]. split; vm_compute; reflexivity. Qed.

(** C1 on a record that reports more successes than tests: 660 of 600 gives
    the rate 1.1, above 1. *)
Lemma rate_is_exact_ratio_witness :
  (exists w',
      parse (Reference.record 600 660 []) "Malicious Image Detection Rate" Reference.w0
      = (Ok (Metric (JInt 600) (JInt 660) (int_quotient 660 600)), w'))
  /\ int_quotient 660 600 = literal 11 10
  /\ fltb one (int_quotient 660 600) = true.
Proof.
  split; [|split; reflexivity].
  exact (@rate_is_exact_ratio Z Reference.random Reference.L
           (Reference.record 600 660 []) "Malicious Image Detection Rate"
           Reference.w0 600 660 eq_refl eq_refl eq_refl eq_refl).
Defined.




(** C4: the claim as stated fails with an empty goal set: the shipped
    sources still yield metrics, and the overall verdict raises [KeyError]
    on the first of them. *)
Lemma empty_goal_set_crashes :
  fst (run_report [] Reference.w0)
  = Raise (KeyError "Anomaly Detection Response Rate").
Proof. vm_compute. reflexivity. Qed.

Lemma shipped_goal_names_distinct : NoDup (dict_keys PERFORMANCE_GOALS_DICT).
Proof. repeat constructor; simpl; intuition discriminate. Defined.

Lemma shipped_goals_match_sources k :
  In k (dict_keys PERFORMANCE_GOALS_DICT) <->
  In k (dict_keys FILE_PATHS) /\ k <> "Configuration Check Log".
Proof.
  simpl. split.
  - intros [<- | [<- | [<- | []]]]; split; auto; discriminate.
  - intros [[<- | [<- | [<- | [<- | []]]]] Hne]; auto; contradiction.
Defined.

(** C4 on the first two of the shipped goals and the three metrics of a run
    (the verdict stops at the second metric, which misses its goal), and in
    the report of the reference world. *)
Lemma overall_verdict_is_conjunction_witness :
  (false =
     forallb (fun row => is_pass (row_status row)) (firstn 2 Reference.summary) /\
   ((exists row, In row (firstn 2 Reference.summary) /\ row_status row = FAIL) ->
    false = false))
  /\ match run_report PERFORMANCE_GOALS_DICT Reference.w0 with
     | (Ok rep, _) =>
         all_metrics_passed rep =
           forallb (fun row => is_pass (row_status row)) (summary_table_data rep)
     | (Raise _, _) => False
     end.
Proof.
  pose proof (@overall_verdict_is_conjunction Z Reference.random Reference.L
                Reference.file_store Reference.json_loads
                FILE_PATHS PERFORMANCE_GOALS_DICT) as (Hloop & _ & _ & Hreport).
  split.
  - apply (Hloop (firstn 2 PERFORMANCE_GOALS_DICT) Reference.processed
             (firstn 2 Reference.summary) (firstn 2 Reference.calculation) false).
    + repeat constructor; simpl; intuition discriminate.
    + vm_compute. reflexivity.
    + vm_compute. reflexivity.
  - destruct (run_report PERFORMANCE_GOALS_DICT Reference.w0) as [[rep|e] w'] eqn:Hrun.
    + exact (Hreport Reference.w0 rep w' shipped_goal_names_distinct Hrun).
    + vm_compute in Hrun. discriminate.
Defined.


(** In the reference world the first two metric sources deliver, the third
    fails. *)
Lemma reference_sources metric_name file_path :
  In (metric_name, file_path) FILE_PATHS ->
  metric_name <> "Configuration Check Log" ->
  source_fails Reference.file_store Reference.json_loads metric_name \/
  source_delivers Reference.file_store Reference.json_loads metric_name.
Proof.
  intros Hin Hne. simpl in Hin.
  destruct Hin as [H | [H | [H | [H | []]]]]; inversion H; subst.
  - right. intro g. eexists. repeat split; reflexivity.
  - right. intro g. eexists. repeat split; reflexivity.
  - left. intro g. left. exists JSONDecodeError. reflexivity.
  - contradiction.
Defined.


(** C6 on the shipped goals extended by a goal that has no source. *)
Lemma goal_without_metric_fails_loudly_witness :
  (exists k,
      In k (dict_keys Reference.goals_with_orphan) /\
      dict_lookup Reference.processed k = None /\
      build_tables Reference.goals_with_orphan Reference.processed = Raise (KeyError k))
  /\ (exists e w', run_report Reference.goals_with_orphan Reference.w0 = (Raise e, w')).
Proof.
  pose proof (@goal_without_metric_fails_loudly Z Reference.random Reference.L
                Reference.file_store Reference.json_loads
                FILE_PATHS Reference.goals_with_orphan) as [Hloop Hreport].
  split.
  - apply (Hloop Reference.goals_with_orphan Reference.processed
             "Pod Restart Recovery Rate").
    + simpl. tauto.
    + reflexivity.
  - apply (Hreport "Pod Restart Recovery Rate" Reference.w0).
    + simpl. tauto.
    + left. simpl. intuition discriminate.
Defined.



(** C8: the claim as stated fails on a non-empty record without
    [total_test_cases]: the normalizer raises [KeyError]. *)
Lemma missing_total_raises :
  parse [("timestamp", JFloat (float_of_Z 1762214400)); ("successful_cases", JInt 5)]
    "Anomaly Detection Response Rate" Reference.w0
  = (Raise (KeyError "total_test_cases"), Reference.w0).
Proof. vm_compute. reflexivity. Qed.

(** C8 on a record of the schema. *)
Lemma normalizer_returns_on_well_formed_records_witness :
  exists m w',
    parse (Reference.record 850 833 [Reference.event 0 "SKIP" 75])
      "Anomaly Detection Response Rate" Reference.w0 = (Ok m, w').
Proof.
  apply (proj1 (@normalizer_returns_on_well_formed_records Z Reference.random
                  Reference.L)).
  right. vm_compute. reflexivity.
Defined.



(** ** The scenarios of the specification *)

(** 833 successes out of 850 against the goal 0.90: PASS. *)
Example scenario_anomaly_detection :
  fst (parse (Reference.record 850 833 []) "Anomaly Detection Response Rate" Reference.w0)
  = Ok (Metric (JInt 850) (JInt 833) (literal 98 100))
  /\ status_of (literal 98 100) (literal 90 100) = PASS.
Proof. split; vm_compute; reflexivity. Qed.

(** 540 successes out of 600 against the goal 0.95: FAIL. *)
Example scenario_malicious_image :
  fst (parse (Reference.record 600 540 []) "Malicious Image Detection Rate" Reference.w0)
  = Ok (Metric (JInt 600) (JInt 540) (literal 90 100))
  /\ status_of (literal 90 100) (literal 95 100) = FAIL.
Proof. split; vm_compute; reflexivity. Qed.

(** A rate equal to the threshold: 540 out of 600 against the goal 0.90 is
    PASS. *)
Example scenario_boundary :
  status_of (int_quotient 540 600) (literal 90 100) = PASS.
Proof. reflexivity. Qed.

(** An empty record against any of the shipped goals: rate 0, FAIL. *)
Example scenario_empty_record :
  fst (parse [] "Data Backup and Recovery Coverage" Reference.w0)
  = Ok (Metric (JInt 0) (JInt 0) zero)
  /\ Forall (fun item => status_of zero (expected_value (snd item)) = FAIL)
       PERFORMANCE_GOALS_DICT.
Proof. split; [reflexivity | repeat constructor]. Qed.

(** The report of the reference world: the first metric passes, the second
    misses its goal, the third has no data; the overall verdict is false. *)
Example scenario_report :
  exists w',
    run_report PERFORMANCE_GOALS_DICT Reference.w0
    = (Ok (Report Reference.summary Reference.calculation false), w').
Proof. eexists. vm_compute. reflexivity. Qed.

(** * Further properties of the code *)

(** ** [execute_complex_validation_function]: errors and hidden state *)

Section ValidationEffects.
Variable rng : Type.
Variable random : random_module rng.
Variable L : libm.

Implicit Types (w : world rng).

(** X1. [execute_complex_validation_function] raises [ValueError] exactly
    when [input_value * 1.0 + 0.001] is negative (from [math.sqrt]) or
    infinite (from [math.sin]), and then neither prints nor touches the
    random generator; otherwise (NaN included) it returns its input, prints
    nothing, and leaves the generator advanced by exactly 500 calls of
    [random.randint(1, 10)]. *)
Theorem validation_function_effects x w :
  (fltb (shifted x) zero = true \/ is_inf (shifted x) = true ->
   execute_complex_validation_function random L x w = (Raise ValueError, w))
  /\ (fltb (shifted x) zero = false -> is_inf (shifted x) = false ->
      execute_complex_validation_function random L x w =
        (Ok x, World (Nat.iter 500 (fun g => snd (randint random 1 10 g)) (gen w))
                 (stdout w))).
Proof.
  rewrite execute_complex_validation_function_outcome. unfold in_domain. split.
  - intros [H | H]; rewrite H; [reflexivity|]. now rewrite andb_false_r.
  - intros H1 H2. now rewrite H1, H2.
Qed.

End ValidationEffects.

(** ** [parse_and_clean_raw_data]: numbers, type errors, what it returns *)

Lemma count_skipped_entries logs :
  forallb has_status logs = true -> count_skipped logs = Ok (skip_entries logs).
Proof.
  unfold skip_entries. induction logs as [|log logs IH]; simpl; intro H.
  - reflexivity.
  - apply andb_true_iff in H as [H1 H2].
    destruct (has_status_getitem _ H1) as [st ->]. rewrite (IH H2).
    destruct (is_skip st); reflexivity.
Qed.

Lemma skip_entries_permutation logs logs' :
  Permutation logs logs' -> skip_entries logs = skip_entries logs'.
Proof.
  intro H. unfold skip_entries.
  induction H; simpl.
  - reflexivity.
  - destruct (match py_getitem x "status" with Ok st => is_skip st | Raise _ => false end);
      simpl; now rewrite IHPermutation.
  - destruct (match py_getitem x "status" with Ok st => is_skip st | Raise _ => false end),
             (match py_getitem y "status" with Ok st => is_skip st | Raise _ => false end);
      reflexivity.
  - congruence.
Qed.

Lemma has_status_permutation logs logs' :
  Permutation logs logs' ->
  forallb has_status logs = true -> forallb has_status logs' = true.
Proof.
  intros Hp H. rewrite forallb_forall in *. intros x Hx.
  apply H. apply Permutation_in with (l := logs'); [now apply Permutation_sym | assumption].
Qed.

Section NormalizerFacts.
Variable rng : Type.
Variable random : random_module rng.
Variable L : libm.

Implicit Types (w : world rng) (raw_data : dict) (metric_name : string).

(** X2. The number that [parse_and_clean_raw_data] prints as "skipped logs"
    is the number of [event_logs] entries whose status is exactly ['SKIP']:
    it is at most the number of entries and does not depend on their order.
    The line is printed once the quotient of the counts exists: when that is
    beyond the doubles, [OverflowError] is raised before anything is
    printed. *)
Theorem skipped_logs_are_counted raw_data metric_name w t s logs :
  dict_lookup raw_data "event_logs" = Some (JList logs) ->
  forallb has_status logs = true ->
  dict_lookup raw_data "total_test_cases" = Some (JInt t) ->
  dict_lookup raw_data "successful_cases" = Some (JInt s) ->
  0 < t ->
  stdout (snd (parse_and_clean_raw_data random L raw_data metric_name w)) =
    (stdout w ++ if is_inf (int_quotient s t) then []
                 else [Filtered metric_name (skip_entries logs)])%list
  /\ (skip_entries logs <= List.length logs)%nat
  /\ (forall logs', Permutation logs logs' ->
        count_skipped logs' = Ok (skip_entries logs)).
Proof.
  intros Hlogs Hvalid Ht Hs Hpos. split; [|split].
  - destruct (@parse_int rng random L raw_data metric_name w
                (skip_entries logs) t s) as (w' & Hrun & Hout); auto.
    + unfold dict_get. rewrite Hlogs. unfold skipped_count. cbn [py_iter].
      now apply count_skipped_entries.
    + rewrite Hrun. exact Hout.
  - unfold skip_entries. apply filter_length_le.
  - intros logs' Hp.
    rewrite (skip_entries_permutation Hp).
    apply count_skipped_entries. now apply has_status_permutation with (logs := logs).
Qed.

(** X3. Whenever [parse_and_clean_raw_data] returns, the metric is either
    the zero metric, with nothing printed (the record is empty, or its
    [total_test_cases] is a number [<= 0]), or it carries the record's own
    [total_test_cases], a number that is not [<= 0] (positive, or NaN), and
    [successful_cases], with their quotient as [rate] and one diagnostic
    line printed; the rate then lies in the domain of the validation
    function: times 1.0 plus 0.001 it is neither negative nor infinite. *)
Theorem normalizer_result_shape raw_data metric_name w m w' :
  parse_and_clean_raw_data random L raw_data metric_name w = (Ok m, w') ->
  (m = zero_metric /\ w' = w /\
   (raw_data = [] \/
    exists tv, dict_lookup raw_data "total_test_cases" = Some tv /\
               py_le_zero tv = Ok true))
  \/ (exists tv sv n,
        dict_lookup raw_data "total_test_cases" = Some tv /\
        dict_lookup raw_data "successful_cases" = Some sv /\
        py_le_zero tv = Ok false /\
        py_truediv sv tv = Ok (rate m) /\
        skipped_count (dict_get raw_data "event_logs" (JList [])) = Ok n /\
        m = Metric tv sv (rate m) /\
        fltb (shifted (rate m)) zero = false /\
        is_inf (shifted (rate m)) = false /\
        stdout w' = (stdout w ++ [Filtered metric_name n])%list).
Proof.
  unfold parse_and_clean_raw_data.
  destruct raw_data as [|kv rest].
  { cbn [dict_is_empty]. unfold ret. intro H. inversion H. left. auto. }
  set (raw_data := kv :: rest).
  change (dict_is_empty raw_data) with false. cbv iota.
  unfold bind at 1. unfold lift at 1.
  destruct (skipped_count (dict_get raw_data "event_logs" (JList []))) as [n|e] eqn:Hn;
    [|discriminate].
  unfold bind at 1. unfold lift at 1. unfold dict_item at 1.
  destruct (dict_lookup raw_data "total_test_cases") as [tv|] eqn:Ht; [|discriminate].
  unfold bind at 1. unfold lift at 1.
  destruct (py_le_zero tv) as [nonpositive|e] eqn:Hle; [|discriminate].
  destruct nonpositive.
  { unfold ret. intro H. inversion H. left. repeat split; auto.
    right. exists tv. auto. }
  unfold bind at 1. unfold lift at 1. unfold dict_item at 1.
  destruct (dict_lookup raw_data "successful_cases") as [sv|] eqn:Hs; [|discriminate].
  unfold bind at 1. unfold lift at 1.
  destruct (py_truediv sv tv) as [x|e] eqn:Hdiv; [|discriminate].
  unfold bind at 1. unfold print at 1. cbv beta iota. unfold bind at 1.
  destruct (execute_complex_validation_function_run random L x
              (World (gen w) (stdout w ++ [Filtered metric_name n])))
    as (w1 & -> & Hout).
  destruct (in_domain x) eqn:Hdom; [|discriminate].
  unfold ret. intro H. inversion H; subst m w1.
  unfold in_domain in Hdom. apply andb_true_iff in Hdom as [H1 H2].
  apply negb_true_iff in H1, H2.
  right. exists tv, sv, n. cbn [rate]. repeat split; auto.
Qed.

(** X4. With numbers for the two counts, whatever their kind (integers,
    doubles, or booleans, which count as 0 and 1), the normalizer does what
    Python's comparison and division do: a [total_test_cases] that is
    [<= 0] gives the zero metric; otherwise the outcome is that of
    [successful_cases / total_test_cases], an exception of the division
    ([OverflowError] for an integer or a quotient of integers beyond the
    doubles), [ValueError] when the quotient is outside the domain of the
    validation function (times 1.0 plus 0.001 it is negative or infinite), and
    else the rounded
    quotient as [rate], with both fields copied as they are. *)
Theorem normalizer_on_numbers raw_data metric_name w tv :
  valid_event_logs (dict_get raw_data "event_logs" (JList [])) = true ->
  dict_lookup raw_data "total_test_cases" = Some tv ->
  (py_le_zero tv = Ok true ->
   parse_and_clean_raw_data random L raw_data metric_name w = (Ok zero_metric, w))
  /\ (forall sv,
        py_le_zero tv = Ok false ->
        dict_lookup raw_data "successful_cases" = Some sv ->
        fst (parse_and_clean_raw_data random L raw_data metric_name w) =
          match py_truediv sv tv with
          | Raise e => Raise e
          | Ok precise_rate =>
              if in_domain precise_rate then Ok (Metric tv sv precise_rate)
              else Raise ValueError
          end).
Proof.
  intros Hlogs Ht.
  destruct (skipped_count_valid _ Hlogs) as [n Hn]. split.
  - intro Hle. now apply parse_nonpositive with (n := n) (tv := tv).
  - intros sv Hle Hs.
    destruct (py_truediv sv tv) as [x|e] eqn:Hdiv.
    + destruct (@parse_positive rng random L raw_data metric_name w n tv sv x)
        as (w' & -> & _); auto.
    + now rewrite (@parse_division_raises rng random L raw_data metric_name w
                     n tv sv e).
Qed.


End NormalizerFacts.
(** ** [load_data_from_simulated_file]: what it returns, prints and catches *)

Section LoaderFacts.
Variable rng : Type.
Variable random : random_module rng.
Variable get_simulated_file_content : string -> rng -> string * rng.
Variable json_loads : string -> result json.
Variable file_paths : list (string * string).

Implicit Types (w : world rng) (file_path metric_name : string).

Local Abbreviation load :=
  (load_data_from_simulated_file random get_simulated_file_content json_loads
     file_paths).

Local Abbreviation after_load :=
  (generator_after_load random get_simulated_file_content).

Lemma rejection_none data :
  rejection data = None ->
  exists o, data = JObj o /\ dict_mem o "timestamp" = true.
Proof.
  unfold rejection. destruct data; simpl; try discriminate.
  - destruct (match index 0 "timestamp" s with Some _ => true | None => false end);
      discriminate.
  - destruct (existsb _ l); discriminate.
  - destruct (dict_mem o "timestamp") eqn:E; [eauto | discriminate].
Qed.

(** The loader on a configured path, case by case. *)
Lemma load_outcome file_path metric_name w :
  metric_name_of_path file_paths file_path = Ok metric_name ->
  load file_path w =
    (Ok (match json_loads (fst (get_simulated_file_content metric_name (gen w))) with
         | Ok (JObj o) => if dict_mem o "timestamp" then o else []
         | _ => []
         end),
     World (after_load metric_name (gen w))
       (stdout w ++
        [Loading file_path;
         match json_loads (fst (get_simulated_file_content metric_name (gen w))) with
         | Raise e => LoadFailed file_path e
         | Ok data =>
             match rejection data, data with
             | Some e, _ => LoadFailed file_path e
             | None, JObj o => Loaded (dict_get o "test_campaign_id" (JStr "N/A"))
             | None, _ => LoadFailed file_path AttributeError
             end
         end])).
Proof.
  intro Hname. unfold load_data_from_simulated_file, generator_after_load.
  unfold bind at 1. unfold lift at 1. rewrite Hname.
  unfold bind at 1. unfold draw at 1.
  destruct (get_simulated_file_content metric_name (gen w)) as [content g].
  cbn [fst snd]. unfold bind at 1. unfold print at 1.
  unfold try_except, bind, draw, lift, print, raise, ret. cbn [gen stdout].
  destruct (uniform random (1 # 100) (1 # 10) g) as [delay g']. cbn [snd].
  destruct (json_loads content) as [data|e];
    [|cbn [gen stdout]; now rewrite <- app_assoc].
  unfold rejection.
  destruct (has_timestamp data) as [[|]|e] eqn:Hts; cbn [negb].
  - destruct data; simpl in Hts; try discriminate;
      cbn [gen stdout]; rewrite <- app_assoc; try reflexivity.
    injection Hts as Hmem. rewrite Hmem. reflexivity.
  - cbn [gen stdout]. rewrite <- app_assoc. destruct data; try reflexivity.
    simpl in Hts. injection Hts as Hmem. rewrite Hmem. reflexivity.
  - cbn [gen stdout]. rewrite <- app_assoc. destruct data; try reflexivity.
    discriminate.
Qed.

(** X6. On a configured path [load_data_from_simulated_file] never raises.
    It prints exactly two lines, the "loading" line and then either the
    "loaded" line or the error line; it returns either the empty dict (after
    the error line) or the decoded object, which then has a ['timestamp']
    key (after the "loaded" line). The generator is advanced by the fetch
    and one draw, whatever the outcome. *)
Theorem loader_on_configured_path file_path metric_name w :
  metric_name_of_path file_paths file_path = Ok metric_name ->
  exists d l,
    load file_path w =
      (Ok d, World (after_load metric_name (gen w))
               (stdout w ++ [Loading file_path; l]))
    /\ ((d = [] /\ exists e, l = LoadFailed file_path e)
        \/ (json_loads (fst (get_simulated_file_content metric_name (gen w)))
              = Ok (JObj d)
            /\ dict_mem d "timestamp" = true
            /\ l = Loaded (dict_get d "test_campaign_id" (JStr "N/A")))).
Proof.
  intro Hname. rewrite (load_outcome _ w Hname).
  do 2 eexists. split; [reflexivity|].
  destruct (json_loads (fst (get_simulated_file_content metric_name (gen w))))
    as [data|e]; [|left; eauto].
  destruct (rejection data) as [e|] eqn:Hrej.
  - left. split; [|eauto].
    destruct data; try reflexivity.
    unfold rejection in Hrej. simpl in Hrej.
    destruct (dict_mem o "timestamp"); [discriminate | reflexivity].
  - destruct (rejection_none _ Hrej) as (o & -> & Hmem).
    right. rewrite Hmem. auto.
Qed.

(** X7. What the loader catches, and the reason it logs: a text that cannot
    be decoded (the decoder's exception); an object without ['timestamp']
    ([ValueError]); a number, boolean or [null] ([TypeError], from the
    membership test); and an array that contains the string ['timestamp'],
    which passes the membership test and then fails on [data.get]
    ([AttributeError]). In each case the empty dict is returned. *)
Theorem loader_failure_reasons file_path metric_name w :
  metric_name_of_path file_paths file_path = Ok metric_name ->
  forall reason,
    (json_loads (fst (get_simulated_file_content metric_name (gen w))) = Raise reason
     \/ (exists o,
           json_loads (fst (get_simulated_file_content metric_name (gen w)))
             = Ok (JObj o)
           /\ dict_mem o "timestamp" = false /\ reason = ValueError)
     \/ (exists v,
           json_loads (fst (get_simulated_file_content metric_name (gen w))) = Ok v
           /\ (v = JNull \/ as_num v <> None) /\ reason = TypeError)
     \/ (exists l,
           json_loads (fst (get_simulated_file_content metric_name (gen w)))
             = Ok (JList l)
           /\ In (JStr "timestamp") l /\ reason = AttributeError)) ->
    load file_path w =
      (Ok [], World (after_load metric_name (gen w))
                (stdout w ++ [Loading file_path; LoadFailed file_path reason])).
Proof.
  intros Hname reason Hcase. rewrite (load_outcome _ w Hname).
  destruct Hcase as [-> | [(o & -> & Hmem & ->) | [(v & -> & Hkind & ->) | (l & -> & Hin & ->)]]].
  - reflexivity.
  - unfold rejection. cbn [has_timestamp]. now rewrite Hmem.
  - destruct Hkind as [-> | Hnum]; [reflexivity|].
    destruct v; simpl in Hnum; try congruence; reflexivity.
  - unfold rejection. cbn [has_timestamp].
    assert (E : existsb (fun v => match v with
                                  | JStr s => String.eqb s "timestamp"
                                  | _ => false
                                  end) l = true).
    { apply existsb_exists. exists (JStr "timestamp"). split; [assumption|].
      apply String.eqb_refl. }
    now rewrite E.
Qed.

(** X8. The loader raises exactly when the path is not a value of
    [FILE_PATHS]: the exception is then [IndexError], from the lookup of the
    metric name, and nothing has been fetched or printed. *)
Theorem loader_raises_iff_unknown_path file_path w :
  ((exists e w',
       load_data_from_simulated_file random get_simulated_file_content json_loads
         file_paths file_path w = (Raise e, w')) <->
   ~ In file_path (map snd file_paths))
  /\ (~ In file_path (map snd file_paths) ->
      load_data_from_simulated_file random get_simulated_file_content json_loads
        file_paths file_path w = (Raise IndexError, w)).
Proof.
  assert (Hunknown : ~ In file_path (map snd file_paths) ->
                     load file_path w = (Raise IndexError, w)).
  { intro Hnot. apply load_unknown_path. intros k Hin. apply Hnot.
    apply in_map_iff. now exists (k, file_path). }
  split; [|exact Hunknown]. split.
  - intros (e & w' & Hrun) Hin. apply in_map_iff in Hin as ([k p] & Hp & Hin).
    simpl in Hp. subst p.
    destruct (metric_name_of_path_in _ _ _ Hin) as [metric_name Hname].
    rewrite (load_outcome _ w Hname) in Hrun. discriminate.
  - intro Hnot. rewrite (Hunknown Hnot). eauto.
Qed.

End LoaderFacts.

(** ** The tables and the overall verdict *)

(** X9. The goal loop returns both tables exactly when every goal has a
    metric. The tables then have one row per goal, in the order of the goals:
    the calculation rows carry the goal names and the [success], [total] and
    [rate] of the metric of that name, the summary rows the descriptions of
    the goals and the same rates. *)
Theorem tables_follow_goals gs processed :
  ((exists summary calculation, build_tables gs processed = Ok (summary, calculation))
   <-> (forall k, In k (dict_keys gs) -> In k (dict_keys processed)))
  /\ (forall summary calculation,
        build_tables gs processed = Ok (summary, calculation) ->
        map calc_key calculation = dict_keys gs /\
        map row_description summary = map (fun item => description (snd item)) gs /\
        map row_actual summary = map calc_rate calculation /\
        Forall (fun row =>
                  exists m, dict_lookup processed (calc_key row) = Some m /\
                            calc_success row = success m /\
                            calc_total row = total m /\
                            calc_rate row = rate m) calculation).
Proof.
  split.
  - split.
    + intros (summary & calculation & H) k Hk.
      apply dict_lookup_in. intro Hnone.
      destruct (build_tables_missing gs processed k Hk Hnone) as (k' & _ & _ & Hraise).
      congruence.
    + intro H. destruct (build_tables_summary gs processed H) as [calc Hb]. eauto.
  - induction gs as [|[key goal_data] gs IH]; simpl; intros summary calculation H.
    + inversion H. repeat split; constructor.
    + unfold dict_item in H.
      destruct (dict_lookup processed key) as [m|] eqn:Hm; [|discriminate].
      destruct (build_tables gs processed) as [[s c]|e]; [|discriminate].
      inversion H; subst. destruct (IH s c eq_refl) as (H1 & H2 & H3 & H4).
      simpl. rewrite H1, H2, H3. repeat split; auto.
      constructor; [|assumption]. exists m. simpl. auto.
Qed.
(** X10. The overall verdict is computed lazily, in the order of the metrics:
    once the metrics before it have all reached their goals, a metric that
    misses its goal makes the verdict [False] whatever comes after it (later
    metrics are not looked at, not even one that has no goal), and a metric
    that has no goal raises [KeyError] with its name. *)
Theorem verdict_stops_at_first_failure goals passing key rest processed m :
  (forall k, In k passing ->
     exists mk gk, dict_lookup processed k = Some mk /\
                   dict_lookup goals k = Some gk /\
                   fleb (expected_value gk) (rate mk) = true) ->
  dict_lookup processed key = Some m ->
  (forall g, dict_lookup goals key = Some g ->
             fleb (expected_value g) (rate m) = false ->
             all_passed goals (passing ++ key :: rest) processed = Ok false)
  /\ (dict_lookup goals key = None ->
      all_passed goals (passing ++ key :: rest) processed = Raise (KeyError key)).
Proof.
  intros Hpassing Hm.
  assert (Hskip : all_passed goals (passing ++ key :: rest) processed =
                  all_passed goals (key :: rest) processed).
  { induction passing as [|k passing IH]; [reflexivity|].
    destruct (Hpassing k (or_introl eq_refl)) as (mk & gk & Hmk & Hgk & Hle).
    simpl. unfold dict_item. rewrite Hmk, Hgk.
    unfold py_ge. rewrite Hle.
    apply IH. intros k' Hk'. apply Hpassing. now right. }
  rewrite Hskip. simpl. unfold dict_item. rewrite Hm. split.
  - intros g Hg Hlt. rewrite Hg. unfold py_ge. now rewrite Hlt.
  - intros ->. reflexivity.
Qed.

Lemma dict_keys_set_new (V : Type) (d : list (string * V)) k v :
  ~ In k (dict_keys d) -> dict_keys (dict_set d k v) = (dict_keys d ++ [k])%list.
Proof.
  induction d as [|[k0 v0] d IH]; simpl; intro H; [reflexivity|].
  destruct (String.eqb_spec k0 k) as [->|Hne]; [tauto|].
  simpl. f_equal. apply IH. tauto.
Qed.

Section IngestFacts.
Variable rng : Type.
Variable random : random_module rng.
Variable L : libm.
Variable get_simulated_file_content : string -> rng -> string * rng.
Variable json_loads : string -> result json.
Variable file_paths : list (string * string).

Implicit Types (w : world rng).

Local Abbreviation ingest_items :=
  (ingest random L get_simulated_file_content json_loads file_paths).

Lemma ingest_order items :
  forall acc w processed w',
    NoDup (dict_keys acc ++ dict_keys items) ->
    ingest_items items acc w = (Ok processed, w') ->
    dict_keys processed = (dict_keys acc ++ filter is_metric_name (dict_keys items))%list.
Proof.
  induction items as [|[metric_name file_path] items IH];
    intros acc w processed w' Hnd Hrun.
  - simpl in Hrun. inversion Hrun; subst. simpl. now rewrite app_nil_r.
  - cbn [ingest] in Hrun. cbn [dict_keys map fst filter] in *.
    unfold is_metric_name at 1.
    destruct (String.eqb metric_name "Configuration Check Log") eqn:E; cbn [negb].
    + apply (IH _ _ _ _ (NoDup_remove_1 _ _ _ Hnd) Hrun).
    + apply bind_ok in Hrun as (raw_data & w1 & _ & Hrun).
      apply bind_ok in Hrun as (m & w2 & _ & Hrun).
      assert (Hnew : ~ In metric_name (dict_keys acc)).
      { intro Hin. apply (NoDup_remove_2 _ _ _ Hnd). apply in_or_app. now left. }
      assert (Hnd' : NoDup (dict_keys (dict_set acc metric_name m) ++ dict_keys items)).
      { rewrite (@dict_keys_set_new _ acc metric_name m Hnew), <- app_assoc. exact Hnd. }
      rewrite (IH _ _ _ _ Hnd' Hrun).
      rewrite (@dict_keys_set_new _ acc metric_name m Hnew), <- app_assoc. reflexivity.
Qed.

(** X11. When the names in [FILE_PATHS] are distinct, the metrics that the
    ingestion loop leaves behind are named after the entries of [FILE_PATHS]
    other than ["Configuration Check Log"], in the same order: the
    compliance log never becomes a metric. *)
Theorem metrics_follow_file_paths w processed w' :
  NoDup (dict_keys file_paths) ->
  ingest_items file_paths [] w = (Ok processed, w') ->
  dict_keys processed = filter is_metric_name (dict_keys file_paths)
  /\ ~ In "Configuration Check Log" (dict_keys processed).
Proof.
  intros Hnd Hrun.
  assert (H : dict_keys processed = filter is_metric_name (dict_keys file_paths))
    by (apply (ingest_order file_paths [] w Hnd Hrun)).
  split; [exact H|]. rewrite H. intro Hin. apply filter_In in Hin as [_ Hin].
  discriminate.
Qed.

End IngestFacts.

(** ** The report: what stops it *)

Section ReportFacts.
Variable rng : Type.
Variable random : random_module rng.
Variable L : libm.
Variable get_simulated_file_content : string -> rng -> string * rng.
Variable json_loads : string -> result json.
Variable file_paths : list (string * string).
Variable goals : list (string * goal).

Implicit Types (w : world rng) (file_path metric_name : string).

Local Abbreviation load :=
  (load_data_from_simulated_file random get_simulated_file_content json_loads
     file_paths).
Local Abbreviation parse := (parse_and_clean_raw_data random L).
Local Abbreviation ingest_items :=
  (ingest random L get_simulated_file_content json_loads file_paths).
Local Abbreviation report_run :=
  (generate_security_and_resilience_report random L get_simulated_file_content
     json_loads file_paths goals).

Lemma parse_missing_total o metric_name w :
  dict_mem o "timestamp" = true ->
  valid_event_logs (dict_get o "event_logs" (JList [])) = true ->
  dict_lookup o "total_test_cases" = None ->
  parse o metric_name w = (Raise (KeyError "total_test_cases"), w).
Proof.
  intros Hts Hlogs Ht.
  destruct (skipped_count_valid _ Hlogs) as [n Hn].
  unfold parse_and_clean_raw_data.
  destruct o as [|kv rest]; [discriminate|].
  cbn [dict_is_empty]. unfold bind, lift, dict_item. now rewrite Hn, Ht.
Qed.

(** Once one turn of the ingestion loop raises, the loop raises. *)
Lemma ingest_raises metric_name file_path items :
  incl items file_paths ->
  In (metric_name, file_path) items ->
  metric_name <> "Configuration Check Log" ->
  (forall w, exists raw_data w1 e w2,
      load file_path w = (Ok raw_data, w1) /\
      parse raw_data metric_name w1 = (Raise e, w2)) ->
  forall acc w, exists e w', ingest_items items acc w = (Raise e, w').
Proof.
  intros Hincl Hin Hne Hturn.
  induction items as [|[name0 path0] items IH]; [contradiction|].
  intros acc w. cbn [ingest].
  assert (Hincl' : incl items file_paths)
    by (intros x Hx; apply Hincl; now right).
  destruct (String.eqb_spec name0 "Configuration Check Log") as [->|Hne0].
  - destruct Hin as [Heq | Hin]; [inversion Heq; congruence|].
    now apply IH.
  - destruct Hin as [Heq | Hin].
    + inversion Heq; subst.
      destruct (Hturn w) as (raw_data & w1 & e & w2 & Hload & Hparse).
      unfold bind at 1. rewrite Hload. unfold bind at 1. rewrite Hparse. eauto.
    + assert (Hhead : In (name0, path0) file_paths) by (apply Hincl; now left).
      destruct (metric_name_of_path_in _ _ _ Hhead) as [name' Hname'].
      destruct (load_configured random get_simulated_file_content json_loads
                  file_paths path0 w Hname') as (d & w1 & Hload & _).
      unfold bind at 1. rewrite Hload. unfold bind at 1.
      destruct (parse d name0 w1) as [[m|e] w2]; [|eauto].
      now apply IH.
Qed.


End ReportFacts.

(** ** [get_simulated_file_content] and the report on simulated data *)

Lemma simulation_parameters_cases metric_name :
  Simulated.simulation_parameters metric_name = (850, 92 # 100, 98 # 100) \/
  Simulated.simulation_parameters metric_name = (600, 96 # 100, 99 # 100) \/
  Simulated.simulation_parameters metric_name = (725, 91 # 100, 97 # 100).
Proof.
  unfold Simulated.simulation_parameters.
  destruct (String.eqb metric_name "Anomaly Detection Response Rate"); [now left|].
  destruct (String.eqb metric_name "Malicious Image Detection Rate"); auto.
Qed.

(** A property of every integer of a range, checked one by one. *)
Lemma bounded_forall (P : Z -> bool) (lo hi : Z) :
  forallb P (map (fun k => lo + Z.of_nat k) (seq 0 (Z.to_nat (hi - lo + 1)))) = true ->
  forall s, lo <= s <= hi -> P s = true.
Proof.
  intros H s Hs. rewrite forallb_forall in H. apply H.
  apply in_map_iff. exists (Z.to_nat (s - lo)). split; [lia|].
  apply in_seq. lia.
Qed.

(** Every success count that the simulation can write gives a quotient that
    exists as a double and lies in the domain of the validation function. *)
Lemma simulated_counts_well_formed metric_name T MIN MAX s :
  Simulated.simulation_parameters metric_name = (T, MIN, MAX) ->
  Qfloor (MIN * inject_Z T) <= s <= Qfloor (MAX * inject_Z T) ->
  is_inf (int_quotient s T) = false /\ in_domain (int_quotient s T) = true.
Proof.
  intros Hp Hbounds.
  assert (H : negb (is_inf (int_quotient s T)) && in_domain (int_quotient s T) = true).
  { destruct (simulation_parameters_cases metric_name) as [H | [H | H]];
      rewrite Hp in H; inversion H; subst; revert s Hbounds.
    - change (forall s, 782 <= s <= 833 ->
                (fun s => negb (is_inf (int_quotient s 850)) &&
                          in_domain (int_quotient s 850)) s = true).
      apply bounded_forall. vm_compute. reflexivity.
    - change (forall s, 576 <= s <= 594 ->
                (fun s => negb (is_inf (int_quotient s 600)) &&
                          in_domain (int_quotient s 600)) s = true).
      apply bounded_forall. vm_compute. reflexivity.
    - change (forall s, 659 <= s <= 703 ->
                (fun s => negb (is_inf (int_quotient s 725)) &&
                          in_domain (int_quotient s 725)) s = true).
      apply bounded_forall. vm_compute. reflexivity. }
  apply andb_true_iff in H as [H1 H2]. apply negb_true_iff in H1. auto.
Qed.

Section SimulationFacts.
Variable rng : Type.
Variable random : random_module rng.
Variable L : libm.
Variable choice : list string -> rng -> string * rng.
Variable time_time : rng -> float * rng.
Variable json_dumps : json -> string.
Variable json_loads : string -> result json.

Implicit Types (w : world rng) (g : rng) (metric_name file_path : string).

Local Abbreviation simulated_value :=
  (Simulated.simulated_value random choice time_time).
Local Abbreviation get_simulated_file_content :=
  (Simulated.get_simulated_file_content random choice time_time json_dumps).

Local Abbreviation uniform_in_range := (uniform_in_range random).
Local Abbreviation simulation_round_trip :=
  (simulation_round_trip random choice time_time json_dumps json_loads).

Lemma event_logs_from_shape n :
  forall i g,
    let logs := fst (Simulated.event_logs_from random choice i n g) in
    List.length logs = n /\
    forallb has_status logs = true /\
    map (fun log => py_getitem log "id") logs =
      map (fun k => Ok (JInt (i + Z.of_nat k))) (seq 0 n).
Proof.
  induction n as [|n IH]; intros i g; cbn [Simulated.event_logs_from].
  - repeat split.
  - destruct (choice ["SUCCESS"; "TIMEOUT"; "SKIP"; "FAIL"] g) as [st g1].
    destruct (randint random 50 500 g1) as [d g2].
    specialize (IH (i + 1) g2). cbv zeta in IH.
    destruct (Simulated.event_logs_from random choice (i + 1) n g2) as [rest g3].
    cbn [fst] in *. destruct IH as (Hlen & Hvalid & Hids).
    split; [simpl; now rewrite Hlen|]. split.
    + cbn [forallb]. rewrite Hvalid. reflexivity.
    + cbn [map seq]. rewrite Hids, <- seq_shift, map_map. f_equal.
      * cbn. rewrite Z.add_0_r. reflexivity.
      * apply map_ext. intro k. do 2 f_equal. lia.
Qed.

(** The record written for a metric. *)
Lemma simulated_metric_shape metric_name g T MIN MAX :
  uniform_in_range ->
  metric_name <> "Configuration Check Log" ->
  Simulated.simulation_parameters metric_name = (T, MIN, MAX) ->
  exists o s logs,
    fst (simulated_value metric_name g) = JObj o /\
    dict_lookup o "total_test_cases" = Some (JInt T) /\
    dict_lookup o "successful_cases" = Some (JInt s) /\
    (Qfloor (MIN * inject_Z T) <= s <= Qfloor (MAX * inject_Z T)) /\
    0 < s < T /\
    dict_mem o "timestamp" = true /\
    dict_lookup o "event_logs" = Some (JList logs) /\
    List.length logs = Z.to_nat T /\
    forallb has_status logs = true /\
    map (fun log => py_getitem log "id") logs =
      map (fun k => Ok (JInt (Z.of_nat k))) (seq 0 (Z.to_nat T)) /\
    well_formed o = true.
Proof.
  intros Huniform Hne Hp. unfold Simulated.simulated_value.
  apply String.eqb_neq in Hne. rewrite Hne, Hp.
  assert (Hparams : (MIN <= MAX)%Q /\ 0 < T /\
                    0 < Qfloor (MIN * inject_Z T) /\
                    Qfloor (MAX * inject_Z T) < T).
  { destruct (simulation_parameters_cases metric_name) as [H | [H | H]];
      rewrite Hp in H; inversion H; subst;
      (split; [vm_compute; discriminate | repeat split]). }
  destruct Hparams as (Horder & HT & Hlow & Hhigh).
  destruct (Huniform MIN MAX g Horder) as [Hmin Hmax].
  destruct (uniform random MIN MAX g) as [u g1]. cbn [fst] in Hmin, Hmax.
  pose proof (event_logs_from_shape (Z.to_nat T) 0 g1) as Hlogs. cbv zeta in Hlogs.
  destruct (Simulated.event_logs_from random choice 0 (Z.to_nat T) g1) as [logs g2].
  destruct (getrandbits random 16 g2) as [campaign g3].
  destruct (time_time g3) as [now g4].
  cbn [fst] in *. destruct Hlogs as (Hlen & Hvalid & Hids).
  assert (HTq : (0 <= inject_Z T)%Q) by (unfold Qle; simpl; lia).
  assert (Hs1 : Qfloor (MIN * inject_Z T) <= Qfloor (u * inject_Z T))
    by (apply Qfloor_resp_le, Qmult_le_compat_r; assumption).
  assert (Hs2 : Qfloor (u * inject_Z T) <= Qfloor (MAX * inject_Z T))
    by (apply Qfloor_resp_le, Qmult_le_compat_r; assumption).
  exists [ ("test_campaign_id", JInt campaign);
           ("total_test_cases", JInt T);
           ("successful_cases", JInt (Qfloor (u * inject_Z T)));
           ("failure_modes",
             JList [JStr "Timeout"; JStr "UnexpectedState"; JStr "Corruption"]);
           ("timestamp", JFloat now);
           ("event_logs", JList logs) ],
         (Qfloor (u * inject_Z T)), logs.
  split; [reflexivity|]. split; [reflexivity|]. split; [reflexivity|].
  split; [lia|]. split; [lia|]. split; [reflexivity|]. split; [reflexivity|].
  split; [exact Hlen|]. split; [exact Hvalid|]. split; [exact Hids|].
  unfold well_formed, dict_get. cbn [dict_lookup String.eqb Ascii.eqb Bool.eqb].
  cbn [valid_event_logs]. rewrite Hvalid. cbn [andb].
  rewrite py_le_zero_int. destruct (Z.leb_spec T 0) as [Hle|_]; [lia|].
  rewrite py_truediv_int by lia.
  destruct (@simulated_counts_well_formed metric_name T MIN MAX
              (Qfloor (u * inject_Z T)) Hp (conj Hs1 Hs2)) as [-> ->].
  reflexivity.
Qed.

(** X13. The content simulated for a metric file, given that
    [random.uniform] stays within its bounds: an object with a
    ['timestamp'], with [total_test_cases] the [TOTAL_TESTS] of the metric
    (850, 600 or 725), with [successful_cases] between
    [floor(MIN_RATE * TOTAL_TESTS)] and [floor(MAX_RATE * TOTAL_TESTS)],
    hence positive and below the total, and with [TOTAL_TESTS] event logs
    that each have a status and carry the ids 0, 1, 2, ... in order. *)
Theorem simulated_metric_record metric_name g T MIN MAX :
  uniform_in_range ->
  metric_name <> "Configuration Check Log" ->
  Simulated.simulation_parameters metric_name = (T, MIN, MAX) ->
  exists o s logs,
    fst (simulated_value metric_name g) = JObj o /\
    dict_lookup o "total_test_cases" = Some (JInt T) /\
    dict_lookup o "successful_cases" = Some (JInt s) /\
    (Qfloor (MIN * inject_Z T) <= s <= Qfloor (MAX * inject_Z T)) /\
    0 < s < T /\
    dict_mem o "timestamp" = true /\
    dict_lookup o "event_logs" = Some (JList logs) /\
    List.length logs = Z.to_nat T /\
    forallb has_status logs = true /\
    map (fun log => py_getitem log "id") logs =
      map (fun k => Ok (JInt (Z.of_nat k))) (seq 0 (Z.to_nat T)) /\
    well_formed o = true.
Proof. apply simulated_metric_shape. Qed.


Lemma simulated_text metric_name g :
  fst (get_simulated_file_content metric_name g) =
    json_dumps (fst (simulated_value metric_name g)).
Proof.
  unfold Simulated.get_simulated_file_content.
  now destruct (Simulated.simulated_value random choice time_time metric_name g).
Qed.

Lemma simulated_compliance_shape g :
  exists st t flags,
    fst (simulated_value "Configuration Check Log" g) =
      JObj [ ("compliance_status", JStr st); ("last_check_time", JFloat t);
             ("critical_flags", JInt flags) ].
Proof.
  unfold Simulated.simulated_value. rewrite String.eqb_refl.
  destruct (choice ["HIGH"; "MEDIUM"; "LOW"] g) as [st g1].
  destruct (time_time g1) as [now g2].
  destruct (randint random 100 1000 g2) as [ago g3].
  destruct (randint random 0 5 g3) as [flags g4].
  do 3 eexists. reflexivity.
Qed.

Section AnyConfiguration.
Variable file_paths : list (string * string).

Local Abbreviation load :=
  (load_data_from_simulated_file random get_simulated_file_content json_loads
     file_paths).

Lemma compliance_load file_path w :
  simulation_round_trip ->
  metric_name_of_path file_paths file_path = Ok "Configuration Check Log" ->
  load file_path w =
    (Ok [],
     World (generator_after_load random get_simulated_file_content
              "Configuration Check Log" (gen w))
       (stdout w ++ [Loading file_path; LoadFailed file_path ValueError])).
Proof.
  intros Hjson Hname.
  rewrite (load_outcome random get_simulated_file_content json_loads file_paths
             file_path w Hname).
  rewrite simulated_text, Hjson.
  destruct (simulated_compliance_shape (gen w)) as (st & t & flags & ->).
  reflexivity.
Qed.

(** X14. The content simulated for ["Configuration Check Log"] has no
    ['timestamp'], so the loader rejects it every time: it logs the failure
    with a [ValueError] and returns the empty dict. The compliance status
    that was drawn never reaches the report. *)
Theorem simulated_compliance_log_never_loads file_path w :
  simulation_round_trip ->
  metric_name_of_path file_paths file_path = Ok "Configuration Check Log" ->
  load file_path w =
    (Ok [],
     World (generator_after_load random get_simulated_file_content
              "Configuration Check Log" (gen w))
       (stdout w ++ [Loading file_path; LoadFailed file_path ValueError])).
Proof. apply compliance_load. Qed.

End AnyConfiguration.

(** *** The shipped report on simulated data *)

Local Abbreviation shipped_load :=
  (load_data_from_simulated_file random get_simulated_file_content json_loads
     FILE_PATHS).
Local Abbreviation shipped_ingest :=
  (ingest random L get_simulated_file_content json_loads FILE_PATHS).
Local Abbreviation shipped_report :=
  (generate_security_and_resilience_report random L get_simulated_file_content
     json_loads FILE_PATHS PERFORMANCE_GOALS_DICT).

Lemma shipped_paths_distinct : NoDup (map snd FILE_PATHS).
Proof. repeat constructor; simpl; intuition discriminate. Qed.


(** Every success count that the simulation can write reaches the goal and
    is below 1. *)
Lemma simulated_counts_pass metric_name file_path T MIN MAX s :
  In (metric_name, file_path) FILE_PATHS ->
  metric_name <> "Configuration Check Log" ->
  Simulated.simulation_parameters metric_name = (T, MIN, MAX) ->
  Qfloor (MIN * inject_Z T) <= s <= Qfloor (MAX * inject_Z T) ->
  fleb (threshold_of PERFORMANCE_GOALS_DICT metric_name) (int_quotient s T) &&
  fltb (int_quotient s T) one = true.
Proof.
  intros Hin Hne Hp Hbounds. simpl in Hin.
  destruct Hin as [H | [H | [H | [H | []]]]]; inversion H; subst;
    try contradiction;
    vm_compute in Hp; inversion Hp; subst; revert s Hbounds.
  - change (forall s, 782 <= s <= 833 ->
              (fun s => fleb (threshold_of PERFORMANCE_GOALS_DICT
                                "Anomaly Detection Response Rate")
                          (int_quotient s 850) &&
                        fltb (int_quotient s 850) one) s = true).
    apply bounded_forall. vm_compute. reflexivity.
  - change (forall s, 576 <= s <= 594 ->
              (fun s => fleb (threshold_of PERFORMANCE_GOALS_DICT
                                "Malicious Image Detection Rate")
                          (int_quotient s 600) &&
                        fltb (int_quotient s 600) one) s = true).
    apply bounded_forall. vm_compute. reflexivity.
  - change (forall s, 659 <= s <= 703 ->
              (fun s => fleb (threshold_of PERFORMANCE_GOALS_DICT
                                "Data Backup and Recovery Coverage")
                          (int_quotient s 725) &&
                        fltb (int_quotient s 725) one) s = true).
    apply bounded_forall. vm_compute. reflexivity.
Qed.

(** One turn of the ingestion loop on simulated data. *)
Lemma simulated_turn metric_name file_path w :
  uniform_in_range ->
  simulation_round_trip ->
  In (metric_name, file_path) FILE_PATHS ->
  metric_name <> "Configuration Check Log" ->
  exists raw_data w1 m w2,
    shipped_load file_path w = (Ok raw_data, w1) /\
    parse_and_clean_raw_data random L raw_data metric_name w1 = (Ok m, w2) /\
    reaches_goal metric_name m.
Proof.
  intros Huniform Hjson Hin Hne.
  pose proof (metric_name_of_path_unique _ _ _ shipped_paths_distinct Hin) as Hname.
  destruct (Simulated.simulation_parameters metric_name) as [[T MIN] MAX] eqn:Hp.
  destruct (simulated_metric_shape (gen w) Huniform Hne Hp)
    as (o & s & logs & Ho & Ht & Hs & Hbounds & Hrange & Hts & Hlogs & _ & Hvalid & _ & _).
  assert (Hdecoded : json_loads (fst (get_simulated_file_content metric_name (gen w)))
                     = Ok (JObj o))
    by (now rewrite simulated_text, Hjson, Ho).
  destruct (load_usable random get_simulated_file_content json_loads FILE_PATHS
              file_path w Hname Hdecoded Hts) as [w1 Hload].
  pose proof (simulated_counts_pass Hin Hne Hp Hbounds) as Hq.
  apply andb_true_iff in Hq as [Hgoal Hbelow].
  destruct (@simulated_counts_well_formed metric_name T MIN MAX s Hp Hbounds)
    as [Hfinite Hdom].
  assert (Hcount : exists n, skipped_count (dict_get o "event_logs" (JList [])) = Ok n).
  { apply skipped_count_valid. unfold dict_get. rewrite Hlogs. exact Hvalid. }
  destruct Hcount as [n Hn].
  destruct (@parse_int rng random L o metric_name w1 n T s Hn Ht Hs)
    as (w2 & Hparse & _); [lia|].
  rewrite Hfinite, Hdom in Hparse.
  exists o, w1, (Metric (JInt T) (JInt s) (int_quotient s T)), w2.
  split; [exact Hload|]. split; [exact Hparse|].
  split; assumption.
Qed.

Lemma shipped_ingest_invariant items :
  uniform_in_range ->
  simulation_round_trip ->
  incl items FILE_PATHS ->
  forall acc w,
    (forall k m, dict_lookup acc k = Some m -> reaches_goal k m) ->
    exists processed w',
      shipped_ingest items acc w = (Ok processed, w') /\
      (forall k m, dict_lookup processed k = Some m -> reaches_goal k m).
Proof.
  intros Huniform Hjson.
  induction items as [|[metric_name file_path] items IH]; intros Hincl acc w Hacc.
  - exists acc, w. split; [reflexivity | exact Hacc].
  - assert (Hin : In (metric_name, file_path) FILE_PATHS) by (apply Hincl; now left).
    assert (Hincl' : incl items FILE_PATHS) by (intros x Hx; apply Hincl; now right).
    cbn [ingest].
    destruct (String.eqb_spec metric_name "Configuration Check Log") as [->|Hne].
    + now apply IH.
    + destruct (@simulated_turn metric_name file_path w Huniform Hjson Hin Hne)
        as (raw_data & w1 & m & w2 & Hload & Hparse & Hgoal).
      unfold bind at 1. rewrite Hload. unfold bind at 1. rewrite Hparse.
      apply IH; [assumption|].
      intros k m' Hk.
      destruct (string_dec metric_name k) as [->|Hneq].
      * rewrite dict_lookup_set_same in Hk. inversion Hk; subst. exact Hgoal.
      * rewrite dict_lookup_set_other in Hk by assumption. now apply Hacc.
Qed.

(** X15. The shipped report always succeeds on its simulated data. Given
    that [random.uniform] stays within its bounds and [json.loads] reads back
    what [json.dumps] wrote, [generate_security_and_resilience_report] with
    the shipped [FILE_PATHS] and [PERFORMANCE_GOALS_DICT] returns in every
    state: all three metrics reach their goals with a rate below 1, every
    status is PASS, the overall verdict is true, and the conclusion is
    printed last with the compliance status ['N/A'], the compliance data
    being empty. *)
Theorem shipped_report_always_passes w :
  uniform_in_range ->
  simulation_round_trip ->
  exists rep w' out,
    shipped_report w = (Ok rep, w') /\
    all_metrics_passed rep = true /\
    map row_status (summary_table_data rep) = [PASS; PASS; PASS] /\
    Forall (fun row => fleb (row_expected row) (row_actual row) = true /\
                       fltb (row_actual row) one = true)
      (summary_table_data rep) /\
    map calc_key (calculation_table_data rep) = dict_keys PERFORMANCE_GOALS_DICT /\
    stdout w' = (out ++ [Conclusion true (JStr "N/A")])%list.
Proof.
  intros Huniform Hjson.
  unfold generate_security_and_resilience_report.
  unfold bind at 1. unfold print at 1. cbv beta iota.
  unfold bind at 1. unfold lift at 1.
  change (dict_item FILE_PATHS "Configuration Check Log")
    with (@Ok string "config/system/check_compliance_status.json").
  cbv beta iota. unfold bind at 1.
  match goal with |- context [load_data_from_simulated_file _ _ _ _ _ ?wi] =>
    rewrite (@compliance_load FILE_PATHS
               "config/system/check_compliance_status.json" wi Hjson eq_refl) end.
  cbv beta iota.
  do 3 (unfold bind at 1; unfold print at 1; cbv beta iota).
  unfold bind at 1.
  match goal with |- context [ingest _ _ _ _ _ FILE_PATHS [] ?wi] =>
    destruct (@shipped_ingest_invariant FILE_PATHS Huniform Hjson
                (incl_refl _) [] wi) as (processed & w3 & Hing & Hgoals) end;
    [discriminate|].
  rewrite Hing. cbv beta iota.
  unfold bind at 1. unfold print at 1. cbv beta iota.
  unfold bind at 1. unfold draw at 1. cbn [gen stdout].
  match goal with |- context [getrandbits random 32 ?g] =>
    destruct (getrandbits random 32 g) as [checksum g'] end.
  assert (Hkeys : forall k, In k (dict_keys PERFORMANCE_GOALS_DICT) <->
                            In k (dict_keys processed)).
  { intro k.
    rewrite (ingest_keys random L get_simulated_file_content json_loads FILE_PATHS
               FILE_PATHS [] _ Hing k).
    simpl. split.
    - intros [<- | [<- | [<- | []]]]; right; split; auto; discriminate.
    - intros [[] | [[<- | [<- | [<- | [<- | []]]]] Hne]]; auto; contradiction. }
  assert (Hrate : forall k, In k (dict_keys PERFORMANCE_GOALS_DICT) ->
            fleb (threshold_of PERFORMANCE_GOALS_DICT k) (rate_of processed k) = true /\
            fltb (rate_of processed k) one = true).
  { intros k Hk. apply Hkeys in Hk. apply dict_lookup_in in Hk. unfold rate_of.
    destruct (dict_lookup processed k) as [m|] eqn:Hm; [|congruence].
    exact (Hgoals k m Hm). }
  assert (Hpass : forall k, In k (dict_keys PERFORMANCE_GOALS_DICT) ->
            py_ge (rate_of processed k) (threshold_of PERFORMANCE_GOALS_DICT k) = true).
  { intros k Hk. unfold py_ge. now apply Hrate. }
  destruct (build_tables_summary PERFORMANCE_GOALS_DICT processed) as [calc Hb];
    [intros k Hk; now apply Hkeys|].
  assert (Hcalc : map calc_key calc = dict_keys PERFORMANCE_GOALS_DICT).
  { revert Hb. unfold PERFORMANCE_GOALS_DICT. cbn [build_tables map].
    unfold dict_item.
    repeat match goal with
           | |- context [dict_lookup processed ?k] =>
               destruct (dict_lookup processed k); [|discriminate]
           end.
    intro Hb. inversion Hb. reflexivity. }
  unfold bind at 1. unfold lift at 1. rewrite Hb. cbv beta iota.
  do 3 (unfold bind at 1; unfold print at 1; cbv beta iota).
  unfold bind at 1. unfold lift at 1.
  rewrite all_passed_conjunction
    by (intros k Hk; split; [|apply Hkeys]; exact Hk).
  assert (Hall : forallb (fun k => py_ge (rate_of processed k)
                                     (threshold_of PERFORMANCE_GOALS_DICT k))
                   (dict_keys processed) = true).
  { apply forallb_forall. intros k Hk. apply Hpass. now apply Hkeys. }
  rewrite Hall. cbv beta iota.
  unfold bind at 1. unfold print at 1. cbv beta iota. unfold ret.
  do 3 eexists. split; [reflexivity|].
  cbn [all_metrics_passed summary_table_data calculation_table_data gen stdout].
  assert (Hrow : forall item, In item PERFORMANCE_GOALS_DICT ->
            row_status (summary_of processed item) = PASS /\
            fleb (row_expected (summary_of processed item))
              (row_actual (summary_of processed item)) = true /\
            fltb (row_actual (summary_of processed item)) one = true).
  { intros item Hitem.
    assert (Hth : threshold_of PERFORMANCE_GOALS_DICT (fst item)
                  = expected_value (snd item))
      by (simpl in Hitem; destruct Hitem as [<- | [<- | [<- | []]]]; reflexivity).
    assert (Hk : In (fst item) (dict_keys PERFORMANCE_GOALS_DICT))
      by (unfold dict_keys; apply in_map; exact Hitem).
    unfold summary_of. cbn [row_status row_expected row_actual].
    unfold status_of. rewrite <- Hth, (Hpass _ Hk).
    destruct (Hrate _ Hk). auto. }
  split; [reflexivity|]. split; [|split; [|split; [exact Hcalc | reflexivity]]].
  - rewrite map_map.
    rewrite (map_ext_in _ (fun _ => PASS)) by (intros item Hitem; apply Hrow, Hitem).
    reflexivity.
  - apply Forall_forall. intros row Hin.
    apply in_map_iff in Hin. destruct Hin as (item & <- & Hitem).
    apply Hrow, Hitem.
Qed.

End SimulationFacts.

(** ** What a run prints *)

Section ReportOutput.
Variable rng : Type.
Variable random : random_module rng.
Variable L : libm.
Variable get_simulated_file_content : string -> rng -> string * rng.
Variable json_loads : string -> result json.
Variable file_paths : list (string * string).
Variable goals : list (string * goal).

Implicit Types (w : world rng) (file_path metric_name : string).

Local Abbreviation load :=
  (load_data_from_simulated_file random get_simulated_file_content json_loads
     file_paths).
Local Abbreviation parse := (parse_and_clean_raw_data random L).
Local Abbreviation ingest_items :=
  (ingest random L get_simulated_file_content json_loads file_paths).
Local Abbreviation report_run :=
  (generate_security_and_resilience_report random L get_simulated_file_content
     json_loads file_paths goals).

Lemma loading_lines_app out out' :
  loading_lines (out ++ out') = (loading_lines out ++ loading_lines out')%list.
Proof. apply flat_map_app. Qed.

(** A load that returns has printed its "loading" line and one more line. *)
Lemma load_ok_output file_path w d w' :
  load file_path w = (Ok d, w') ->
  exists l,
    stdout w' = (stdout w ++ [Loading file_path; l])%list /\ loading_lines [l] = [].
Proof.
  intro H.
  destruct (metric_name_of_path file_paths file_path) as [metric_name|e] eqn:Hname.
  - rewrite (load_outcome random get_simulated_file_content json_loads file_paths
               file_path w Hname) in H.
    inversion H; subst. cbn [stdout]. eexists. split; [reflexivity|].
    destruct (json_loads (fst (get_simulated_file_content metric_name (gen w))))
      as [data|e]; [|reflexivity].
    destruct (rejection data); [reflexivity|]. destruct data; reflexivity.
  - unfold load_data_from_simulated_file, bind, lift in H. rewrite Hname in H.
    discriminate.
Qed.

(** The normalizer prints at most its diagnostic line. *)
Lemma parse_output raw_data metric_name w :
  exists out,
    stdout (snd (parse raw_data metric_name w)) = (stdout w ++ out)%list /\
    loading_lines out = [].
Proof.
  assert (Hquiet : exists out, stdout w = (stdout w ++ out)%list /\ loading_lines out = [])
    by (exists []; now rewrite app_nil_r).
  destruct raw_data as [|kv rest]; [exact Hquiet|].
  set (raw_data := kv :: rest).
  unfold parse_and_clean_raw_data. change (dict_is_empty raw_data) with false. cbv iota.
  unfold bind at 1. unfold lift at 1.
  destruct (skipped_count (dict_get raw_data "event_logs" (JList []))) as [n|e];
    [|exact Hquiet].
  unfold bind at 1. unfold lift at 1.
  destruct (dict_item raw_data "total_test_cases") as [tv|e]; [|exact Hquiet].
  unfold bind at 1. unfold lift at 1.
  destruct (py_le_zero tv) as [[|]|e]; [exact Hquiet | | exact Hquiet].
  unfold bind at 1. unfold lift at 1.
  destruct (dict_item raw_data "successful_cases") as [sv|e]; [|exact Hquiet].
  unfold bind at 1. unfold lift at 1.
  destruct (py_truediv sv tv) as [x|e]; [|exact Hquiet].
  unfold bind at 1. unfold print at 1. cbv beta iota. unfold bind at 1.
  destruct (execute_complex_validation_function_run random L x
              (World (gen w) (stdout w ++ [Filtered metric_name n])))
    as (w1 & -> & Hout).
  exists [Filtered metric_name n].
  destruct (in_domain x); unfold ret; cbn [snd];
    rewrite Hout; auto.
Qed.

(** The ingestion loop loads each metric source once, in order. *)
Lemma ingest_output items :
  forall acc w processed w',
    ingest_items items acc w = (Ok processed, w') ->
    exists out,
      stdout w' = (stdout w ++ out)%list /\ loading_lines out = metric_paths items.
Proof.
  unfold metric_paths.
  induction items as [|[metric_name file_path] items IH];
    intros acc w processed w' Hrun.
  - inversion Hrun; subst. exists []. now rewrite app_nil_r.
  - cbn [ingest] in Hrun. cbn [filter fst]. unfold is_metric_name at 1.
    destruct (String.eqb metric_name "Configuration Check Log"); cbn [negb].
    + exact (IH _ _ _ _ Hrun).
    + apply bind_ok in Hrun as (raw_data & w1 & Hload & Hrun).
      apply bind_ok in Hrun as (m & w2 & Hparse & Hrun).
      destruct (load_ok_output _ _ Hload) as (l & Hw1 & Hl).
      destruct (parse_output raw_data metric_name w1) as (out2 & Hw2 & Hout2).
      rewrite Hparse in Hw2. cbn [snd] in Hw2.
      destruct (IH _ _ _ _ Hrun) as (out3 & Hw' & Hout3).
      exists ([Loading file_path] ++ [l] ++ out2 ++ out3)%list. split.
      * rewrite Hw', Hw2, Hw1. rewrite <- !app_assoc. reflexivity.
      * rewrite !loading_lines_app, Hl, Hout2, Hout3. reflexivity.
Qed.

Lemma print_ok l w (u : unit) w' :
  print l w = (Ok u, w') -> stdout w' = (stdout w ++ [l])%list.
Proof. unfold print. intro H. inversion H. reflexivity. Qed.

(** X16. What a run that returns a report has printed: it loaded the
    compliance log first and then each metric source exactly once, in the
    order of [FILE_PATHS]; it printed the compliance status with the default
    ['UNKNOWN'], both tables as they are returned, and last of all the
    conclusion, which carries the verdict that is returned and the compliance
    status again, this time with the default ['N/A']. Nothing that was on
    standard output before is lost. *)
Theorem report_output w rep w' :
  report_run w = (Ok rep, w') ->
  exists compliance_path compliance_data out before_conclusion,
    dict_lookup file_paths "Configuration Check Log" = Some compliance_path /\
    fst (load compliance_path
           (World (gen w)
              (stdout w ++ [Banner ">>> STARTING CONFIGURATION COMPLIANCE CHECK <<<"])))
      = Ok compliance_data /\
    stdout w' = (stdout w ++ out)%list /\
    loading_lines out = compliance_path :: metric_paths file_paths /\
    In (Compliance (dict_get compliance_data "compliance_status" (JStr "UNKNOWN"))
          (dict_get compliance_data "critical_flags" (JInt 0))) out /\
    In (CalculationTable (calculation_table_data rep)) out /\
    In (SummaryTable (summary_table_data rep)) out /\
    out = (before_conclusion ++
           [Conclusion (all_metrics_passed rep)
              (dict_get compliance_data "compliance_status" (JStr "N/A"))])%list.
Proof.
  unfold generate_security_and_resilience_report. intro H.
  apply bind_ok in H as (u1 & w1 & H1 & H).
  apply bind_ok in H as (cp & w2 & Hcp & H).
  apply bind_ok in H as (cd & w3 & Hload & H).
  apply bind_ok in H as (u4 & w4 & H4 & H).
  apply bind_ok in H as (u5 & w5 & H5 & H).
  apply bind_ok in H as (u6 & w6 & H6 & H).
  apply bind_ok in H as (processed & w7 & Hing & H).
  apply bind_ok in H as (u8 & w8 & H8 & H).
  apply bind_ok in H as (checksum & w9 & H9 & H).
  apply bind_ok in H as ([summary calculation] & w10 & Htab & H).
  apply bind_ok in H as (u11 & w11 & H11 & H).
  apply bind_ok in H as (u12 & w12 & H12 & H).
  apply bind_ok in H as (u13 & w13 & H13 & H).
  apply bind_ok in H as (overall & w14 & Hall & H).
  apply bind_ok in H as (u15 & w15 & H15 & H).
  unfold ret in H. inversion H; subst rep w15. clear H.
  unfold lift in Hcp, Htab, Hall.
  inversion Hcp as [[Hitem Hw2]]. inversion Htab as [[Htables Hw10]].
  inversion Hall as [[Hoverall Hw14]]. subst w2 w10 w14.
  assert (Hw1 : w1 = World (gen w)
                  (stdout w ++ [Banner ">>> STARTING CONFIGURATION COMPLIANCE CHECK <<<"]))
    by (unfold print in H1; now inversion H1).
  assert (Hw9 : stdout w9 = stdout w8).
  { unfold draw in H9. destruct (getrandbits random 32 (gen w8)).
    inversion H9. reflexivity. }
  apply print_ok in H1, H4, H5, H6, H8, H11, H12, H13, H15.
  destruct (load_ok_output _ _ Hload) as (l & Hw3 & Hl).
  destruct (ingest_output _ _ _ Hing) as (mid & Hw7 & Hmid).
  set (body :=
         ([Banner ">>> STARTING CONFIGURATION COMPLIANCE CHECK <<<"; Loading cp] ++
          [l] ++
          [Compliance (dict_get cd "compliance_status" (JStr "UNKNOWN"))
             (dict_get cd "critical_flags" (JInt 0));
           Banner ">>> CONFIGURATION CHECK COMPLETE <<<";
           Banner ">>> STARTING DATA INGESTION AND ANALYSIS <<<"] ++ mid ++
          [Banner ">>> DATA ANALYSIS COMPLETE <<<";
           Banner "**Kubernetes Operator Security & Resilience Test Report** (Version: v1.3.0)";
           CalculationTable calculation; SummaryTable summary])%list).
  exists cp, cd,
    (body ++ [Conclusion overall (dict_get cd "compliance_status" (JStr "N/A"))])%list,
    body.
  cbn [all_metrics_passed summary_table_data calculation_table_data].
  split.
  { unfold dict_item in Hitem.
    destruct (dict_lookup file_paths "Configuration Check Log"); now inversion Hitem. }
  split; [rewrite <- Hw1, Hload; reflexivity|].
  split.
  { rewrite H15, H13, H12, H11, Hw9, H8, Hw7, H6, H5, H4, Hw3, H1.
    unfold body. rewrite <- !app_assoc. reflexivity. }
  split.
  { unfold body. rewrite !loading_lines_app, Hl, Hmid.
    cbn [loading_lines flat_map app]. now rewrite !app_nil_r. }
  split; [|split; [|split; [|reflexivity]]]; apply in_or_app; left; unfold body.
  - apply in_or_app. right. apply in_or_app. right.
    apply in_or_app. left. left. reflexivity.
  - do 4 (apply in_or_app; right). right. right. left. reflexivity.
  - do 4 (apply in_or_app; right). right. right. right. left. reflexivity.
Qed.

End ReportOutput.

(** * The further properties on concrete inputs *)

(** The world without chance keeps the two laws of the simulation. *)
Lemma fixed_uniform_in_range : uniform_in_range Fixed.random.
Proof.
  intros a b g H. cbn [uniform Fixed.random fst]. split; [apply Qle_refl | exact H].
Defined.

Lemma fixed_round_trip :
  simulation_round_trip Fixed.random Fixed.choice Fixed.time_time
    Fixed.json_dumps Fixed.json_loads.
Proof.
  intros metric_name []. unfold Simulated.simulated_value.
  destruct (String.eqb metric_name "Configuration Check Log") eqn:E0.
  { vm_compute. reflexivity. }
  unfold Simulated.simulation_parameters.
  destruct (String.eqb metric_name "Anomaly Detection Response Rate").
  { vm_compute. reflexivity. }
  destruct (String.eqb metric_name "Malicious Image Detection Rate");
    vm_compute; reflexivity.
Qed.

(** X1 on the rates -1.0 and 0.98. *)
(** X1 on the rates -1.0 and 0.98, and on an infinite rate. *)
Lemma validation_function_effects_witness :
  execute_complex_validation_function Reference.random Reference.L
    (float_of_Z (-1)) Reference.w0 = (Raise ValueError, Reference.w0)
  /\ execute_complex_validation_function Reference.random Reference.L
       infinity Reference.w0 = (Raise ValueError, Reference.w0)
  /\ execute_complex_validation_function Reference.random Reference.L
       (literal 98 100) Reference.w0
     = (Ok (literal 98 100),
        World (Nat.iter 500 (fun g => snd (randint Reference.random 1 10 g)) 42) []).
Proof.
  split; [|split].
  - apply (proj1 (@validation_function_effects Z Reference.random Reference.L
                    (float_of_Z (-1)) Reference.w0)).
    left. reflexivity.
  - apply (proj1 (@validation_function_effects Z Reference.random Reference.L
                    infinity Reference.w0)).
    right. reflexivity.
  - apply (proj2 (@validation_function_effects Z Reference.random Reference.L
                    (literal 98 100) Reference.w0)); reflexivity.
Defined.

(** X2 on a record with two skipped logs out of three. *)
Lemma skipped_logs_are_counted_witness :
  stdout (snd (parse (Reference.record 850 833
                        [Reference.event 0 "SKIP" 75; Reference.event 1 "SUCCESS" 120;
                         Reference.event 2 "SKIP" 50])
                 "Anomaly Detection Response Rate" Reference.w0))
    = [Filtered "Anomaly Detection Response Rate" 2]
  /\ (2 <= 3)%nat
  /\ (forall logs',
        Permutation [Reference.event 0 "SKIP" 75; Reference.event 1 "SUCCESS" 120;
                     Reference.event 2 "SKIP" 50] logs' ->
        count_skipped logs' = Ok 2%nat).
Proof.
  exact (@skipped_logs_are_counted Z Reference.random Reference.L
           (Reference.record 850 833
              [Reference.event 0 "SKIP" 75; Reference.event 1 "SUCCESS" 120;
               Reference.event 2 "SKIP" 50])
           "Anomaly Detection Response Rate" Reference.w0 850 833
           [Reference.event 0 "SKIP" 75; Reference.event 1 "SUCCESS" 120;
            Reference.event 2 "SKIP" 50]
           eq_refl eq_refl eq_refl eq_refl eq_refl).
Defined.

(** X3 on what the normalizer returns for 833 successes out of 850. *)
Lemma normalizer_result_shape_witness :
  (Metric (JInt 850) (JInt 833) (literal 98 100) = zero_metric /\
   snd (parse (Reference.record 850 833 []) "Anomaly Detection Response Rate"
          Reference.w0) = Reference.w0 /\
   (Reference.record 850 833 [] = [] \/
    exists tv, dict_lookup (Reference.record 850 833 []) "total_test_cases" = Some tv /\
               py_le_zero tv = Ok true))
  \/ (exists tv sv n,
        dict_lookup (Reference.record 850 833 []) "total_test_cases" = Some tv /\
        dict_lookup (Reference.record 850 833 []) "successful_cases" = Some sv /\
        py_le_zero tv = Ok false /\
        py_truediv sv tv = Ok (literal 98 100) /\
        skipped_count (dict_get (Reference.record 850 833 []) "event_logs" (JList []))
          = Ok n /\
        Metric (JInt 850) (JInt 833) (literal 98 100)
          = Metric tv sv (literal 98 100) /\
        fltb (shifted (literal 98 100)) zero = false /\
        is_inf (shifted (literal 98 100)) = false /\
        stdout (snd (parse (Reference.record 850 833 [])
                       "Anomaly Detection Response Rate" Reference.w0))
          = (stdout Reference.w0
             ++ [Filtered "Anomaly Detection Response Rate" n])%list).
Proof.
  apply (@normalizer_result_shape Z Reference.random Reference.L
           (Reference.record 850 833 []) "Anomaly Detection Response Rate"
           Reference.w0 (Metric (JInt 850) (JInt 833) (literal 98 100))
           (snd (parse (Reference.record 850 833 [])
                   "Anomaly Detection Response Rate" Reference.w0))).
  vm_compute. reflexivity.
Defined.

(** X4 on records whose total is the double 2.5 or 0.1: with the success
    count [True] the rate is 0.4; 0.09 / 0.1 is rounded below 0.9; 1e308 / 0.1
    is infinite, outside the domain; the integer [10 ** 400] cannot be
    converted. *)
Lemma normalizer_on_numbers_witness :
  fst (parse [ ("total_test_cases", JFloat (literal 25 10));
               ("successful_cases", JBool true) ]
         "Anomaly Detection Response Rate" Reference.w0)
    = Ok (Metric (JFloat (literal 25 10)) (JBool true) (literal 4 10))
  /\ (exists rate,
        fst (parse [ ("total_test_cases", JFloat (literal 1 10));
                     ("successful_cases", JFloat (literal 9 100)) ]
               "Anomaly Detection Response Rate" Reference.w0)
          = Ok (Metric (JFloat (literal 1 10)) (JFloat (literal 9 100)) rate)
        /\ fltb rate (literal 90 100) = true)
  /\ fst (parse [ ("total_test_cases", JFloat (literal 1 10));
                  ("successful_cases", JFloat (float_of_Z (10 ^ 308))) ]
            "Anomaly Detection Response Rate" Reference.w0)
       = Raise ValueError
  /\ fst (parse [ ("total_test_cases", JFloat (literal 25 10));
                  ("successful_cases", JInt (10 ^ 400)) ]
            "Anomaly Detection Response Rate" Reference.w0)
       = Raise OverflowError.
Proof.
  split; [|split; [|split]].
  - exact (proj2 (@normalizer_on_numbers Z Reference.random Reference.L
                    [ ("total_test_cases", JFloat (literal 25 10));
                      ("successful_cases", JBool true) ]
                    "Anomaly Detection Response Rate" Reference.w0
                    (JFloat (literal 25 10)) eq_refl eq_refl)
             (JBool true) eq_refl eq_refl).
  - exists (fdiv (literal 9 100) (literal 1 10)). split; [|reflexivity].
    exact (proj2 (@normalizer_on_numbers Z Reference.random Reference.L
                    [ ("total_test_cases", JFloat (literal 1 10));
                      ("successful_cases", JFloat (literal 9 100)) ]
                    "Anomaly Detection Response Rate" Reference.w0
                    (JFloat (literal 1 10)) eq_refl eq_refl)
             (JFloat (literal 9 100)) eq_refl eq_refl).
  - exact (proj2 (@normalizer_on_numbers Z Reference.random Reference.L
                    [ ("total_test_cases", JFloat (literal 1 10));
                      ("successful_cases", JFloat (float_of_Z (10 ^ 308))) ]
                    "Anomaly Detection Response Rate" Reference.w0
                    (JFloat (literal 1 10)) eq_refl eq_refl)
             (JFloat (float_of_Z (10 ^ 308))) eq_refl eq_refl).
  - exact (proj2 (@normalizer_on_numbers Z Reference.random Reference.L
                    [ ("total_test_cases", JFloat (literal 25 10));
                      ("successful_cases", JInt (10 ^ 400)) ]
                    "Anomaly Detection Response Rate" Reference.w0
                    (JFloat (literal 25 10)) eq_refl eq_refl)
             (JInt (10 ^ 400)) eq_refl eq_refl).
Defined.


(** X6 on the first source of the reference world. *)
Lemma loader_on_configured_path_witness :
  exists d l,
    load "config/test_data/anomaly_test_runs.json" Reference.w0 =
      (Ok d,
       World (generator_after_load Reference.random Reference.file_store
                "Anomaly Detection Response Rate" 42)
         [Loading "config/test_data/anomaly_test_runs.json"; l])
    /\ ((d = [] /\ exists e, l = LoadFailed "config/test_data/anomaly_test_runs.json" e)
        \/ (Reference.json_loads
              (fst (Reference.file_store "Anomaly Detection Response Rate" 42))
              = Ok (JObj d)
            /\ dict_mem d "timestamp" = true
            /\ l = Loaded (dict_get d "test_campaign_id" (JStr "N/A")))).
Proof.
  apply (@loader_on_configured_path Z Reference.random Reference.file_store
           Reference.json_loads FILE_PATHS
           "config/test_data/anomaly_test_runs.json"
           "Anomaly Detection Response Rate" Reference.w0).
  reflexivity.
Defined.

(** X7 in the reference world: the backup log cannot be decoded, the
    compliance record has no timestamp. *)
Lemma loader_failure_reasons_witness :
  load "config/test_data/backup_coverage_log.json" Reference.w0 =
    (Ok [],
     World (generator_after_load Reference.random Reference.file_store
              "Data Backup and Recovery Coverage" 42)
       [Loading "config/test_data/backup_coverage_log.json";
        LoadFailed "config/test_data/backup_coverage_log.json" JSONDecodeError])
  /\ load "config/system/check_compliance_status.json" Reference.w0 =
       (Ok [],
        World (generator_after_load Reference.random Reference.file_store
                 "Configuration Check Log" 42)
          [Loading "config/system/check_compliance_status.json";
           LoadFailed "config/system/check_compliance_status.json" ValueError]).
Proof.
  split.
  - apply (@loader_failure_reasons Z Reference.random Reference.file_store
             Reference.json_loads FILE_PATHS
             "config/test_data/backup_coverage_log.json"
             "Data Backup and Recovery Coverage" Reference.w0).
    + reflexivity.
    + left. reflexivity.
  - apply (@loader_failure_reasons Z Reference.random Reference.file_store
             Reference.json_loads FILE_PATHS
             "config/system/check_compliance_status.json"
             "Configuration Check Log" Reference.w0).
    + reflexivity.
    + right. left. exists Reference.compliance_record. repeat split; reflexivity.
Defined.

(** X8 on a path that [FILE_PATHS] does not list. *)
Lemma loader_raises_iff_unknown_path_witness :
  load "config/test_data/anomaly_test_runs.yaml" Reference.w0
  = (Raise IndexError, Reference.w0).
Proof.
  apply (proj2 (@loader_raises_iff_unknown_path Z Reference.random
                  Reference.file_store Reference.json_loads FILE_PATHS
                  "config/test_data/anomaly_test_runs.yaml" Reference.w0)).
  simpl. intuition discriminate.
Defined.

(** X9 on the shipped goals and the metrics of a run. *)
Lemma tables_follow_goals_witness :
  map calc_key Reference.calculation = dict_keys PERFORMANCE_GOALS_DICT /\
  map row_description Reference.summary =
    map (fun item => description (snd item)) PERFORMANCE_GOALS_DICT /\
  map row_actual Reference.summary = map calc_rate Reference.calculation /\
  Forall (fun row =>
            exists m, dict_lookup Reference.processed (calc_key row) = Some m /\
                      calc_success row = success m /\
                      calc_total row = total m /\
                      calc_rate row = rate m) Reference.calculation.
Proof.
  apply (proj2 (@tables_follow_goals PERFORMANCE_GOALS_DICT Reference.processed)
           Reference.summary Reference.calculation).
  vm_compute. reflexivity.
Defined.

(** X10 on the metrics of a run: the second metric misses its goal, and the
    name after it, which has neither a goal nor a metric, is not looked at. *)
Lemma verdict_stops_at_first_failure_witness :
  all_passed PERFORMANCE_GOALS_DICT
    [ "Anomaly Detection Response Rate"; "Malicious Image Detection Rate";
      "Pod Restart Recovery Rate" ] Reference.processed = Ok false.
Proof.
  destruct (@verdict_stops_at_first_failure PERFORMANCE_GOALS_DICT
              ["Anomaly Detection Response Rate"] "Malicious Image Detection Rate"
              ["Pod Restart Recovery Rate"] Reference.processed
              (Metric (JInt 600) (JInt 540) (int_quotient 540 600))) as [Hfail _].
  - intros k [<- | []].
    exists (Metric (JInt 850) (JInt 833) (int_quotient 833 850)),
           (Goal "Anomaly Event Detection Response Rate" (literal 90 100) "%").
    split; [reflexivity|]. split; reflexivity.
  - reflexivity.
  - apply (Hfail (Goal "Malicious Image Detection Rate" (literal 95 100) "%")).
    + reflexivity.
    + reflexivity.
Defined.

Lemma shipped_names_distinct : NoDup (dict_keys FILE_PATHS).
Proof. repeat constructor; simpl; intuition discriminate. Defined.

(** X11 on the shipped [FILE_PATHS] in the reference world. *)
Lemma metrics_follow_file_paths_witness :
  match ingest Reference.random Reference.L Reference.file_store
          Reference.json_loads FILE_PATHS FILE_PATHS [] Reference.w0 with
  | (Ok processed, _) =>
      dict_keys processed =
        [ "Anomaly Detection Response Rate"; "Malicious Image Detection Rate";
          "Data Backup and Recovery Coverage" ]
      /\ ~ In "Configuration Check Log" (dict_keys processed)
  | (Raise _, _) => False
  end.
Proof.
  destruct (ingest Reference.random Reference.L Reference.file_store
              Reference.json_loads FILE_PATHS FILE_PATHS [] Reference.w0)
    as [[processed|e] w'] eqn:Hrun.
  - exact (@metrics_follow_file_paths Z Reference.random Reference.L
             Reference.file_store Reference.json_loads FILE_PATHS
             Reference.w0 processed w' shipped_names_distinct Hrun).
  - vm_compute in Hrun. discriminate.
Defined.


(** X13 on the first metric in the world without chance. *)
Lemma simulated_metric_record_witness :
  exists o s logs,
    fst (Simulated.simulated_value Fixed.random Fixed.choice Fixed.time_time
           "Anomaly Detection Response Rate" tt) = JObj o /\
    dict_lookup o "total_test_cases" = Some (JInt 850) /\
    dict_lookup o "successful_cases" = Some (JInt s) /\
    (Qfloor ((92 # 100) * inject_Z 850) <= s <= Qfloor ((98 # 100) * inject_Z 850)) /\
    0 < s < 850 /\
    dict_mem o "timestamp" = true /\
    dict_lookup o "event_logs" = Some (JList logs) /\
    List.length logs = Z.to_nat 850 /\
    forallb has_status logs = true /\
    map (fun log => py_getitem log "id") logs =
      map (fun k => Ok (JInt (Z.of_nat k))) (seq 0 (Z.to_nat 850)) /\
    well_formed o = true.
Proof.
  apply (@simulated_metric_record unit Fixed.random Fixed.choice Fixed.time_time
           "Anomaly Detection Response Rate" tt 850 (92 # 100) (98 # 100)).
  - exact fixed_uniform_in_range.
  - discriminate.
  - reflexivity.
Defined.

(** X14 in the world without chance. *)
Lemma simulated_compliance_log_never_loads_witness :
  load_data_from_simulated_file Fixed.random
    (Simulated.get_simulated_file_content Fixed.random Fixed.choice Fixed.time_time
       Fixed.json_dumps)
    Fixed.json_loads FILE_PATHS "config/system/check_compliance_status.json" Fixed.w0
  = (Ok [],
     World tt [ Loading "config/system/check_compliance_status.json";
                LoadFailed "config/system/check_compliance_status.json" ValueError ]).
Proof.
  apply (@simulated_compliance_log_never_loads unit Fixed.random Fixed.choice
           Fixed.time_time Fixed.json_dumps Fixed.json_loads FILE_PATHS
           "config/system/check_compliance_status.json" Fixed.w0).
  - exact fixed_round_trip.
  - reflexivity.
Defined.

(** X15 in the world without chance. *)
Lemma shipped_report_always_passes_witness :
  exists rep w' out,
    generate_security_and_resilience_report Fixed.random Reference.L
      (Simulated.get_simulated_file_content Fixed.random Fixed.choice Fixed.time_time
         Fixed.json_dumps)
      Fixed.json_loads FILE_PATHS PERFORMANCE_GOALS_DICT Fixed.w0 = (Ok rep, w') /\
    all_metrics_passed rep = true /\
    map row_status (summary_table_data rep) = [PASS; PASS; PASS] /\
    Forall (fun row => fleb (row_expected row) (row_actual row) = true /\
                       fltb (row_actual row) one = true)
      (summary_table_data rep) /\
    map calc_key (calculation_table_data rep) = dict_keys PERFORMANCE_GOALS_DICT /\
    stdout w' = (out ++ [Conclusion true (JStr "N/A")])%list.
Proof.
  apply (@shipped_report_always_passes unit Fixed.random Reference.L Fixed.choice
           Fixed.time_time Fixed.json_dumps Fixed.json_loads Fixed.w0).
  - exact fixed_uniform_in_range.
  - exact fixed_round_trip.
Defined.

(** X16 on the run of the reference world. *)
Lemma report_output_witness :
  match run_report PERFORMANCE_GOALS_DICT Reference.w0 with
  | (Ok rep, w') =>
      exists compliance_path compliance_data out before_conclusion,
        dict_lookup FILE_PATHS "Configuration Check Log" = Some compliance_path /\
        fst (load compliance_path
               (World 42 [Banner ">>> STARTING CONFIGURATION COMPLIANCE CHECK <<<"]))
          = Ok compliance_data /\
        stdout w' = out /\
        loading_lines out = compliance_path :: metric_paths FILE_PATHS /\
        In (Compliance (dict_get compliance_data "compliance_status" (JStr "UNKNOWN"))
              (dict_get compliance_data "critical_flags" (JInt 0))) out /\
        In (CalculationTable (calculation_table_data rep)) out /\
        In (SummaryTable (summary_table_data rep)) out /\
        out = (before_conclusion ++
               [Conclusion (all_metrics_passed rep)
                  (dict_get compliance_data "compliance_status" (JStr "N/A"))])%list
  | (Raise _, _) => False
  end.
Proof.
  destruct (run_report PERFORMANCE_GOALS_DICT Reference.w0) as [[rep|e] w'] eqn:Hrun.
  - exact (@report_output Z Reference.random Reference.L Reference.file_store
             Reference.json_loads FILE_PATHS PERFORMANCE_GOALS_DICT
             Reference.w0 rep w' Hrun).
  - vm_compute in Hrun. discriminate.
Defined.

